(** * compass-schema-validation: the validation and sample-documents modules

    A shallow embedding of the Redux modules of the schema-validation
    plugin: the validation reducer with its thunks ([fetchValidation],
    [saveValidation]) and the sample-documents reducer with its fetch
    pipeline, each in the two revisions the sources hold.  State and
    action objects are finite maps from property names to values,
    exceptions are an error monad, and a thunk is run against an oracle
    for the data service, logging what it dispatches and which
    data-service methods it calls. *)

From Stdlib Require Import ZArith String Ascii List.
From stdpp Require Import base option list strings pretty gmap.

Set Warnings "-register-all".
Local Open Scope string_scope.
Local Open Scope list_scope.

(** ** JavaScript values *)

Module JS.

(** The values the modules handle: primitives, arrays, plain objects (in
    property order), [Error] objects, and the object with no property of
    its own whose prototype is [proto], an object or [null], as the
    literal [{ __proto__: proto }] makes it.  Every other object has the
    prototype of its kind. *)
Inductive value : Type :=
| VUndefined
| VNull
| VBool (b : bool)
| VNum (n : Z)
| VStr (s : string)
| VArr (items : list value)
| VObj (props : list (string * value))
| VErr (name message : string)
| VProto (proto : value).

(** A computation either returns or throws a value. *)
Inductive res (A : Type) : Type :=
| Return (a : A)
| Throw (e : value).
Arguments Return {A} a.
Arguments Throw {A} e.

#[global] Instance res_ret : MRet res := fun A a => Return a.
#[global] Instance res_bind : MBind res := fun A B k c =>
  match c with
  | Return a => k a
  | Throw e => Throw e
  end.

Definition TypeError (message : string) : value := VErr "TypeError" message.
Definition SyntaxError (message : string) : value := VErr "SyntaxError" message.

(** ToBoolean. *)
Definition truthy (v : value) : bool :=
  match v with
  | VUndefined | VNull => false
  | VBool b => b
  | VNum n => negb (n =? 0)%Z
  | VStr s => negb (String.eqb s "")
  | VArr _ | VObj _ | VErr _ _ | VProto _ => true
  end.

(** Own-property lookup in a plain object. *)
Fixpoint assoc (k : string) (props : list (string * value)) : option value :=
  match props with
  | [] => None
  | (k', v) :: rest => if String.eqb k k' then Some v else assoc k rest
  end.

(** [obj[k] = v] on a plain object: overwrite in place or append. *)
Fixpoint set_prop (k : string) (v : value) (props : list (string * value))
  : list (string * value) :=
  match props with
  | [] => [(k, v)]
  | (k', v') :: rest =>
      if String.eqb k k' then (k, v) :: rest else (k', v') :: set_prop k v rest
  end.

(** Read of the named property [v.k]; reading a property of [undefined]
    or [null] throws a TypeError.  An object without properties of its
    own reads those of its prototype, and [undefined] at the end of the
    chain. *)
Fixpoint get (v : value) (k : string) : res value :=
  match v with
  | VUndefined => Throw (TypeError ("Cannot read property '" +:+ k +:+ "' of undefined"))
  | VNull => Throw (TypeError ("Cannot read property '" +:+ k +:+ "' of null"))
  | VObj props => Return (default VUndefined (assoc k props))
  | VErr name message =>
      Return (if String.eqb k "message" then VStr message
              else if String.eqb k "name" then VStr name
              else VUndefined)
  | VArr items =>
      Return (if String.eqb k "length" then VNum (Z.of_nat (length items))
              else VUndefined)
  | VStr s =>
      Return (if String.eqb k "length" then VNum (Z.of_nat (String.length s))
              else VUndefined)
  | VBool _ | VNum _ => Return VUndefined
  | VProto proto =>
      match proto with
      | VArr _ | VObj _ | VErr _ _ | VProto _ => get proto k
      | _ => Return VUndefined
      end
  end.

(** Indexed read [v[i]]. *)
Fixpoint get_index (v : value) (i : nat) : res value :=
  match v with
  | VArr items => Return (default VUndefined (items !! i))
  | VStr s =>
      Return (match String.get i s with
              | Some c => VStr (String c EmptyString)
              | None => VUndefined
              end)
  | VProto proto =>
      match proto with
      | VArr _ | VProto _ => get_index proto i
      | _ => get v (pretty i)
      end
  | _ => get v (pretty i)
  end.

(** ToString, as applied by [+] to its right operand.  A plain object
    prints as [[object Object]] unless an own [toString] property shadows
    the inherited method; no value of this model is callable, so the
    conversion then fails.  An object without properties of its own
    inherits the methods and the properties they read from its prototype,
    so it converts as its prototype does: through [join] when that is an
    array.  With the prototype [null] there is no method to call. *)
Fixpoint to_string (v : value) : res string :=
  match v with
  | VUndefined => Return "undefined"
  | VNull => Return "null"
  | VBool b => Return (if b then "true" else "false")
  | VNum n => Return (pretty n)
  | VStr s => Return s
  | VArr items =>
      (fix join (l : list value) : res string :=
         match l with
         | [] => Return ""
         | x :: rest =>
             s ← match x with
                 | VUndefined | VNull => Return ""
                 | _ => to_string x
                 end;
             match rest with
             | [] => Return s
             | _ => t ← join rest; Return (s +:+ "," +:+ t)
             end
         end) items
  | VObj props =>
      match assoc "toString" props with
      | Some _ => Throw (TypeError "Cannot convert object to primitive value")
      | None => Return "[object Object]"
      end
  | VErr name message => Return (name +:+ ": " +:+ message)
  | VProto proto =>
      match proto with
      | VNull => Throw (TypeError "Cannot convert object to primitive value")
      | VArr _ | VObj _ | VErr _ _ | VProto _ => to_string proto
      | _ => Return "[object Object]"
      end
  end.


(** [docs[0] ? docs[0] : null] *)
Definition first_or_null (docs : value) : res value :=
  d ← get_index docs 0;
  if truthy d then get_index docs 0 else mret VNull.

(** Property read on a state or action object: a missing key reads as
    [undefined]. *)
Definition prop (o : gmap string value) (k : string) : value :=
  default VUndefined (o !! k).

End JS.
Import JS.

(** ** Stores, actions and the data service *)

(** A dispatched action: its [type], a string as every action creator of
    the modules gives it, and the rest of its properties. *)
Record action : Type := Action {
  type : string;
  payload : gmap string value
}.

(** The result a data-service method hands to its callback:
    [(error, data)]. *)
Definition reply : Type := (value * value)%type.

(** The cursor an aggregation returns. *)
Record Cursor : Type := {
  toArray : reply
}.

(** The data service, as an oracle: every method calls its callback once,
    with the reply given here. *)
Record DataService : Type := {
  listCollections : string -> value -> reply;
  command : string -> value -> reply;
  find : string -> value -> value -> reply;
  count : string -> value -> value -> reply;
  aggregate : string -> value -> value -> value * Cursor
}.

Record Namespace : Type := {
  database : string;
  collection : string;
  ns : string
}.

(** The root state a thunk reads through [getState()]: the data service
    ([state.dataService.dataService], absent until one is connected), the
    namespace and the states of the two reducers. *)
Record RootState : Type := {
  dataService : option DataService;
  namespace : Namespace;
  validation : gmap string value;
  sampleDocuments : gmap string value
}.

(** What a thunk does, in order. *)
Inductive event : Type :=
| Dispatched (a : action)
| Called (method : string) (args : list value).

(** A thunk run: the events so far and a result or an escaped exception. *)
Definition io (A : Type) : Type := (list event * res A)%type.

#[global] Instance io_ret : MRet io := fun A a => ([], Return a).
#[global] Instance io_bind : MBind io := fun A B k c =>
  match c with
  | (log, Return a) => let '(log', r) := k a in (log ++ log', r)
  | (log, Throw e) => (log, Throw e)
  end.

Definition dispatch (a : action) : io unit := ([Dispatched a], Return tt).
Definition call (method : string) (args : list value) : io unit :=
  ([Called method args], Return tt).
Definition lift {A : Type} (c : res A) : io A := ([], c).

(** The actions a run dispatched. *)
Definition dispatched {A : Type} (run : io A) : list action :=
  omap (fun e => match e with Dispatched a => Some a | Called _ _ => None end)
       run.1.

(** ** External libraries *)

(** The libraries the validation module requires: [context-eval] (run an
    expression in a sandbox holding the given names), the two stringifiers
    (with their indent argument) and the language model's acceptor. *)
Class Engine : Type := {
  evaluate : list string -> string -> res value;
  EJSON_stringify : value -> option nat -> value;
  javascriptStringify : value -> option nat -> value;
  accepts : value -> bool
}.

(** ** The validation module (src/modules/validation.js) *)

Module Validation.

Definition PREFIX : string := "validation".
Definition VALIDATOR_CHANGED : string := PREFIX +:+ "/VALIDATOR_CHANGED".
Definition VALIDATOR_CANCELED : string := PREFIX +:+ "/VALIDATOR_CANCELED".
Definition VALIDATOR_SAVED : string := PREFIX +:+ "/VALIDATOR_SAVED".
Definition VALIDATOR_CREATED : string := PREFIX +:+ "/VALIDATOR_CREATED".
Definition VALIDATION_ACTION_CHANGED : string :=
  PREFIX +:+ "/VALIDATION_ACTION_CHANGED".
Definition VALIDATION_LEVEL_CHANGED : string :=
  PREFIX +:+ "/VALIDATION_LEVEL_CHANGED".

Definition INITIAL_STATE : gmap string value :=
  {[ "validator" := VStr "";
     "validationAction" := VStr "warning";
     "validationLevel" := VStr "moderate";
     "isChanged" := VBool false;
     "syntaxError" := VNull ]}.

(** The names the sandbox object binds. *)
Definition getQuerySandbox : list string :=
  [ "RegExp"; "Binary"; "Code"; "DBRef"; "Decimal128"; "NumberDecimal";
    "Double"; "Int32"; "NumberInt"; "Long"; "NumberLong"; "Int64"; "Map";
    "MaxKey"; "MinKey"; "ObjectID"; "ObjectId"; "Symbol"; "Timestamp";
    "ISODate"; "Date" ].

(** What [checkValidator] returns. *)
Record Checked : Type := {
  syntaxError : value;
  validator : value
}.

(** Action creators. *)
Definition validationActionChanged (validationAction : value) : action :=
  Action VALIDATION_ACTION_CHANGED {[ "validationAction" := validationAction ]}.
Definition validationLevelChanged (validationLevel : value) : action :=
  Action VALIDATION_LEVEL_CHANGED {[ "validationLevel" := validationLevel ]}.
Definition validatorChanged (validator : value) : action :=
  Action VALIDATOR_CHANGED {[ "validator" := validator ]}.
Definition validatorCreated (validator : value) : action :=
  Action VALIDATOR_CREATED {[ "validator" := validator ]}.
Definition validatorCanceled : action :=
  Action VALIDATOR_CANCELED ∅.
Definition validatorSaved (validator : value) : action :=
  Action VALIDATOR_SAVED {[ "validator" := validator ]}.

(** lodash [defaults(object, source)]: fill in the properties of [object]
    that read as [undefined]. *)
Definition defaults (object source : list (string * value))
  : list (string * value) :=
  foldl (fun obj kv =>
           match assoc kv.1 obj with
           | None | Some VUndefined => set_prop kv.1 kv.2 obj
           | Some _ => obj
           end) object source.

Section WithEngine.
Context `{Engine}.

(** [sandbox.__result = {}], then evaluate ['__result = ' + input]. *)
Definition executeJavascript (input : value) (sandbox : list string)
  : res value :=
  let sandbox := sandbox ++ ["__result"] in
  text ← to_string input;
  evaluate sandbox ("__result = " +:+ text).

Definition checkValidator (input : value) : Checked :=
  let sandbox := getQuerySandbox in
  match executeJavascript input sandbox with
  | Return parsed => {| syntaxError := VNull; validator := parsed |}
  | Throw error => {| syntaxError := error; validator := input |}
  end.

Definition changeValidator (state : gmap string value) (action : action)
  : gmap string value :=
  let validation := checkValidator (prop (payload action) "validator") in
  <["syntaxError" := syntaxError validation]>
    (<["validator" := prop (payload action) "validator"]>
       (<["isChanged" := VBool true]> state)).

Definition cancelValidator (state : gmap string value) (_ : action)
  : gmap string value :=
  <["syntaxError" := VNull]>
    (<["validator" := prop state "prevValidator"]>
       (<["isChanged" := VBool false]> state)).

Definition updateValidator (state : gmap string value) (action : action)
  : gmap string value :=
  let newState :=
    <["syntaxError" := VNull]>
      (<["validator" := prop (payload action) "validator"]>
         (<["isChanged" := VBool false]> state)) in
  newState.

Definition createValidator (state : gmap string value) (action : action)
  : gmap string value :=
  let validation := checkValidator (prop (payload action) "validator") in
  let text := javascriptStringify (validator validation) (Some 2%nat) in
  <["syntaxError" := VNull]>
    (<["validator" := text]>
       (<["prevValidator" := text]>
          (<["isChanged" := VBool false]> state))).

Definition changeValidationAction (state : gmap string value) (action : action)
  : gmap string value :=
  <["validationAction" := prop (payload action) "validationAction"]> state.

Definition changeValidationLevel (state : gmap string value) (action : action)
  : gmap string value :=
  <["validationLevel" := prop (payload action) "validationLevel"]> state.

(** The transitions the module registers, by action type: the own
    properties of the literal. *)
Definition MAPPINGS
  : gmap string (gmap string value -> action -> gmap string value) :=
  {[ VALIDATOR_CHANGED := changeValidator;
     VALIDATOR_CANCELED := cancelValidator;
     VALIDATOR_CREATED := createValidator;
     VALIDATOR_SAVED := updateValidator;
     VALIDATION_ACTION_CHANGED := changeValidationAction;
     VALIDATION_LEVEL_CHANGED := changeValidationLevel ]}.

(** [reducer(state = INITIAL_STATE, action)]: [None] is the [undefined]
    the store passes at start-up.  This is the reducer on the action types
    that find no more in [MAPPINGS] than the module registers;
    [Inherited.reducer] below also has the types that name a property the
    literal inherits. *)
Definition reducer (state : option (gmap string value)) (action : action)
  : gmap string value :=
  let state := default INITIAL_STATE state in
  match MAPPINGS !! type action with
  | Some fn => fn state action
  | None => state
  end.

(** The thunk [fetchValidation(namespace)]; the events after the call to
    [listCollections] are those of its callback. *)
Definition fetchValidation (namespace : Namespace) (state : RootState)
  : io unit :=
  match dataService state with
  | Some dataService =>
      let filter := VObj [("name", VStr (collection namespace))] in
      call "listCollections" [VStr (database namespace); filter];;
      let '(error, data) :=
        listCollections dataService (database namespace) filter in
      row ← lift (get_index data 0);
      options ← lift (get row "options");
      let validation :=
        [ ("validator", prop INITIAL_STATE "validator");
          ("validationAction", prop INITIAL_STATE "validationAction");
          ("validationLevel", prop INITIAL_STATE "validationLevel") ] in
      validation ←
        (if negb (truthy error) && truthy options then
           v ← lift (get options "validator");
           a ← lift (get options "validationAction");
           l ← lift (get options "validationLevel");
           mret (defaults [ ("validator", v);
                            ("validationAction", a);
                            ("validationLevel", l) ] validation)
         else mret validation);
      dispatch (validatorCreated
                  (EJSON_stringify
                     (default VUndefined (assoc "validator" validation))
                     (Some 2%nat)));;
      dispatch (validationActionChanged
                  (default VUndefined (assoc "validationAction" validation)));;
      dispatch (validationLevelChanged
                  (default VUndefined (assoc "validationLevel" validation)))
  | None => mret tt
  end.

(** The thunk [saveValidation(validator)]; the callback of [command]
    logs its arguments to the console and dispatches [validatorSaved]
    whatever the reply. *)
Definition saveValidation (input : value) (state : RootState) : io unit :=
  let namespace := namespace state in
  let validation := checkValidator input in
  match dataService state with
  | Some dataService =>
      let cmd := VObj [ ("collMod", VStr (collection namespace));
                        ("validator", validator validation);
                        ("validationLevel", VStr "moderate") ] in
      call "command" [VStr (database namespace); cmd];;
      let '(error, data) := command dataService (database namespace) cmd in
      dispatch (validatorSaved input)
  | None => mret tt
  end.

End WithEngine.
End Validation.

(** ** The earlier revision of the validation module (unnamed/part_005) *)

Module ValidationEarly.

Definition PREFIX : string := "validation".
Definition VALIDATOR_CHANGED : string := PREFIX +:+ "/VALIDATOR_CHANGED".
Definition VALIDATOR_CANCELED : string := PREFIX +:+ "/VALIDATOR_CANCELED".
Definition VALIDATOR_SAVED : string := PREFIX +:+ "/VALIDATOR_SAVED".

Definition INITIAL_STATE : gmap string value :=
  {[ "validator" := VStr "";
     "isChanged" := VBool false;
     "syntaxError" := VNull ]}.

Definition validatorChanged (validator : value) : action :=
  Action VALIDATOR_CHANGED {[ "validator" := validator ]}.
Definition validatorCanceled : action :=
  Action VALIDATOR_CANCELED ∅.
Definition validatorSaved (validator : value) : action :=
  Action VALIDATOR_SAVED {[ "validator" := validator ]}.
Definition validationFetched (validator : value) : action :=
  Action VALIDATOR_SAVED {[ "validator" := validator ]}.

Section WithEngine.
Context `{Engine}.

(** Here the checker also normalises the evaluated value to EJSON text and
    asks the language model whether it accepts that text. *)
Definition checkValidator (input : value) : Validation.Checked :=
  let sandbox := Validation.getQuerySandbox in
  match Validation.executeJavascript input sandbox with
  | Return parsed =>
      let text := EJSON_stringify parsed None in
      {| Validation.validator := text;
         Validation.syntaxError :=
           if accepts text then VNull
           else VStr "MongoDB language model does not accept the input" |}
  | Throw error =>
      {| Validation.validator := input; Validation.syntaxError := error |}
  end.

Definition changeValidator (state : gmap string value) (action : action)
  : gmap string value :=
  let newState := state in
  let validation := checkValidator (prop (payload action) "validator") in
  let newState := <["isChanged" := VBool true]> newState in
  let newState := <["validator" := Validation.validator validation]> newState in
  let newState :=
    <["syntaxError" := Validation.syntaxError validation]> newState in
  newState.

Definition cancelValidator (state : gmap string value) (_ : action)
  : gmap string value :=
  let newState := state in
  let newState := <["isChanged" := VBool false]> newState in
  let newState := <["validator" := VStr ""]> newState in
  let newState := <["syntaxError" := VNull]> newState in
  newState.

Definition saveValidator (state : gmap string value) (action : action)
  : gmap string value :=
  let newState := state in
  let newState := <["isChanged" := VBool false]> newState in
  let newState :=
    <["validator" := prop (payload action) "validator"]> newState in
  let newState := <["syntaxError" := VNull]> newState in
  newState.

Definition MAPPINGS
  : gmap string (gmap string value -> action -> gmap string value) :=
  <[VALIDATOR_SAVED := saveValidator]>
    (<[VALIDATOR_CANCELED := cancelValidator]>
       (<[VALIDATOR_CHANGED := changeValidator]> ∅)).

Definition reducer (state : option (gmap string value)) (action : action)
  : gmap string value :=
  let state := default INITIAL_STATE state in
  match MAPPINGS !! type action with
  | Some fn => fn state action
  | None => state
  end.

(** The callback reads [data[0].options] and returns; both of its
    branches are still to be written. *)
Definition fetchValidation (namespace : Namespace) (state : RootState)
  : io unit :=
  match dataService state with
  | Some dataService =>
      let filter := VObj [("name", VStr (collection namespace))] in
      call "listCollections" [VStr (database namespace); filter];;
      let '(error, data) :=
        listCollections dataService (database namespace) filter in
      row ← lift (get_index data 0);
      options ← lift (get row "options");
      if truthy error || negb (truthy options) then mret tt else mret tt
  | None => mret tt
  end.

End WithEngine.
End ValidationEarly.

(** ** The earlier revision of the sample-documents module
       (unnamed/part_003) *)

Module SampleDocumentsEarly.

Definition SAMPLE_DOCUMENTS_FETCHED : string :=
  "validation/namespace/SAMPLE_DOCUMENTS_FETCHED".
Definition LOADING_SAMPLE_DOCUMENTS : string :=
  "validation/namespace/LOADING_SAMPLE_DOCUMENTS".

Definition INITIAL_STATE : gmap string value :=
  {[ "matching" := VNull; "notmatching" := VNull; "isLoading" := VBool false ]}.

Definition OPTIONS : value :=
  VObj [("maxTimeMS", VNum 5000); ("limit", VNum 1)].

Definition refreshSampleDocuments (state : gmap string value) (action : action)
  : gmap string value :=
  <["isLoading" := VBool false]>
    (<["notmatching" := prop (payload action) "notmatching"]>
       (<["matching" := prop (payload action) "matching"]> state)).

Definition sampleDocumentsFetched (sampleDocuments : list (string * value))
  : action :=
  Action SAMPLE_DOCUMENTS_FETCHED
    {[ "matching" := default VUndefined (assoc "matching" sampleDocuments);
       "notmatching" :=
         default VUndefined (assoc "notmatching" sampleDocuments) ]}.

Definition loadSampleDocuments (state : gmap string value) (_ : action)
  : gmap string value :=
  <["isLoading" := VBool true]>
    (<["type" := VStr LOADING_SAMPLE_DOCUMENTS]> state).

Definition loadingSampleDocuments : action :=
  Action LOADING_SAMPLE_DOCUMENTS ∅.

Definition MAPPINGS
  : gmap string (gmap string value -> action -> gmap string value) :=
  <[LOADING_SAMPLE_DOCUMENTS := loadSampleDocuments]>
    (<[SAMPLE_DOCUMENTS_FETCHED := refreshSampleDocuments]> ∅).

Definition reducer (state : option (gmap string value)) (action : action)
  : gmap string value :=
  let state := default INITIAL_STATE state in
  match MAPPINGS !! type action with
  | Some fn => fn state action
  | None => state
  end.

Section WithEngine.
Context `{Engine}.

(** The thunk [fetchSampleDocuments(validator)]: the two lookups are
    nested [find] calls, and a callback that receives an error does
    nothing. *)
Definition fetchSampleDocuments (input : value) (state : RootState)
  : io unit :=
  dispatch loadingSampleDocuments;;
  let namespace := ns (namespace state) in
  let checkedValidator := Validation.checkValidator input in
  let query :=
    Validation.validator
      (Validation.checkValidator (Validation.validator checkedValidator)) in
  match dataService state with
  | Some dataService =>
      call "find" [VStr namespace; query; OPTIONS];;
      let '(matchingError, matching) :=
        find dataService namespace query OPTIONS in
      if negb (truthy matchingError) then
        let negated := VObj [("$nor", VArr [query])] in
        call "find" [VStr namespace; negated; OPTIONS];;
        let '(notmatchingError, notmatching) :=
          find dataService namespace negated OPTIONS in
        if negb (truthy notmatchingError) then
          m ← lift (first_or_null matching);
          n ← lift (first_or_null notmatching);
          dispatch (sampleDocumentsFetched
                      [("matching", m); ("notmatching", n)])
        else mret tt
      else mret tt
  | None => mret tt
  end.

End WithEngine.
End SampleDocumentsEarly.

(** ** The sample-documents module (unnamed/part_004) *)

Module SampleDocuments.

Definition SAMPLE_DOCUMENTS_FETCHED : string :=
  "validation/namespace/SAMPLE_DOCUMENTS_FETCHED".
Definition LOADING_SAMPLE_DOCUMENTS : string :=
  "validation/namespace/LOADING_SAMPLE_DOCUMENTS".

Definition INITIAL_STATE : gmap string value :=
  {[ "matching" := VNull; "notmatching" := VNull; "isLoading" := VBool false ]}.

Definition MAX_LIMIT : Z := 100000.

Definition refreshSampleDocuments (state : gmap string value) (action : action)
  : gmap string value :=
  <["isLoading" := VBool false]>
    (<["notmatching" := prop (payload action) "notmatching"]>
       (<["matching" := prop (payload action) "matching"]> state)).

Definition sampleDocumentsFetched (sampleDocuments : list (string * value))
  : action :=
  Action SAMPLE_DOCUMENTS_FETCHED
    {[ "matching" := default VUndefined (assoc "matching" sampleDocuments);
       "notmatching" :=
         default VUndefined (assoc "notmatching" sampleDocuments) ]}.

Definition loadSampleDocuments (state : gmap string value) (_ : action)
  : gmap string value :=
  <["isLoading" := VBool true]>
    (<["type" := VStr LOADING_SAMPLE_DOCUMENTS]> state).

Definition loadingSampleDocuments : action :=
  Action LOADING_SAMPLE_DOCUMENTS ∅.

Definition MAPPINGS
  : gmap string (gmap string value -> action -> gmap string value) :=
  <[LOADING_SAMPLE_DOCUMENTS := loadSampleDocuments]>
    (<[SAMPLE_DOCUMENTS_FETCHED := refreshSampleDocuments]> ∅).

Definition reducer (state : option (gmap string value)) (action : action)
  : gmap string value :=
  let state := default INITIAL_STATE state in
  match MAPPINGS !! type action with
  | Some fn => fn state action
  | None => state
  end.

(** The object [docsOptions] that [fetchSampleDocuments] shares with the
    two [getSampleDocuments] calls ([dispatch] is the ambient one). *)
Record DocsOptions : Type := {
  pipeline : list value;
  docsNamespace : string;
  docsDataService : DataService;
  docsCount : value
}.

(** [count > MAX_LIMIT] for the number a successful count returns. *)
Definition over_limit (count : value) : bool :=
  match count with
  | VNum n => (MAX_LIMIT <? n)%Z
  | _ => false
  end.

Section WithEngine.
Context `{Engine}.
(** The action creator the module imports from the validation module; no
    revision under src/ defines it. *)
Variable syntaxErrorOccurred : value -> action.

Definition zeroDocuments (error : value) : io unit :=
  dispatch (syntaxErrorOccurred error);;
  dispatch (sampleDocumentsFetched
              [("matching", VNull); ("notmatching", VNull)]).

(** [getSampleDocuments(docsOptions, callback)].  [unshift] changes the
    pipeline array in place, so the callback sees the changed
    [docsOptions]. *)
Definition getSampleDocuments (docsOptions : DocsOptions)
    (callback : DocsOptions -> value -> io unit) : io unit :=
  let aggOptions := VObj [("allowDiskUse", VBool true)] in
  let docsOptions :=
    if over_limit (docsCount docsOptions) then
      {| pipeline := VObj [("$limit", VNum MAX_LIMIT)] :: pipeline docsOptions;
         docsNamespace := docsNamespace docsOptions;
         docsDataService := docsDataService docsOptions;
         docsCount := docsCount docsOptions |}
    else docsOptions in
  call "aggregate" [ VStr (docsNamespace docsOptions);
                     VArr (pipeline docsOptions); aggOptions ];;
  let '(aggError, cursor) :=
    aggregate (docsDataService docsOptions) (docsNamespace docsOptions)
      (VArr (pipeline docsOptions)) aggOptions in
  if truthy aggError then zeroDocuments aggError
  else
    call "toArray" [];;
    let '(toArrayError, documents) := toArray cursor in
    if truthy toArrayError then zeroDocuments toArrayError
    else
      call "close" [];;
      callback docsOptions documents.

(** The thunk [fetchSampleDocuments(validator)]: a count, then the
    matching lookup, then the lookup of a document under [$nor]. *)
Definition fetchSampleDocuments (input : value) (state : RootState)
  : io unit :=
  dispatch loadingSampleDocuments;;
  let namespace := ns (namespace state) in
  let checkedValidator := Validation.checkValidator input in
  let query :=
    Validation.validator
      (Validation.checkValidator (Validation.validator checkedValidator)) in
  let pipeline := [ VObj [("$match", query)]; VObj [("$limit", VNum 1)] ] in
  match dataService state with
  | Some dataService =>
      call "count" [VStr namespace; query; VObj []];;
      let '(countError, count) := count dataService namespace query (VObj []) in
      if truthy countError then zeroDocuments countError
      else
        let docsOptions :=
          {| pipeline := pipeline;
             docsNamespace := namespace;
             docsDataService := dataService;
             docsCount := count |} in
        getSampleDocuments docsOptions (fun docsOptions matching =>
          let docsOptions :=
            {| pipeline :=
                 [ VObj [("$match", VObj [("$nor", VArr [query])])];
                   VObj [("$limit", VNum 1)] ];
               docsNamespace := docsNamespace docsOptions;
               docsDataService := docsDataService docsOptions;
               docsCount := docsCount docsOptions |} in
          getSampleDocuments docsOptions (fun _ notmatching =>
            m ← lift (first_or_null matching);
            n ← lift (first_or_null notmatching);
            dispatch (sampleDocumentsFetched
                        [("matching", m); ("notmatching", n)])))
  | None => mret tt
  end.

End WithEngine.
End SampleDocuments.

(** ** A reference engine *)

(** An engine for the literal fragment of the expressions a validator is
    written in: objects, arrays, strings without escapes, non-negative
    integers, [true], [false], [null] and [undefined].  An object literal
    sets its prototype with the entry [__proto__] (as an identifier or a
    string); the fragment has that entry alone in its literal.  Text of
    the fragment evaluates to the value it denotes; any other text is
    reported as a syntax error.  The stringifiers print that fragment
    back. *)
Module Reference.

Inductive token : Type :=
| TLBrace | TRBrace | TLBrack | TRBrack | TColon | TComma | TAssign
| TIdent (s : string)
| TNum (n : Z)
| TStr (s : string).

Definition code (c : ascii) : nat := nat_of_ascii c.

Definition is_digit (c : ascii) : bool :=
  (48 <=? code c)%nat && (code c <=? 57)%nat.

Definition is_ident_start (c : ascii) : bool :=
  ((65 <=? code c)%nat && (code c <=? 90)%nat)
  || ((97 <=? code c)%nat && (code c <=? 122)%nat)
  || (code c =? 95)%nat || (code c =? 36)%nat.

Definition is_ident_part (c : ascii) : bool := is_ident_start c || is_digit c.

Definition is_space (c : ascii) : bool :=
  (code c =? 32)%nat || (code c =? 10)%nat || (code c =? 13)%nat
  || (code c =? 9)%nat.

Fixpoint span (p : ascii -> bool) (s : string) : string * string :=
  match s with
  | EmptyString => (EmptyString, EmptyString)
  | String c rest =>
      if p c then let '(taken, more) := span p rest in (String c taken, more)
      else (EmptyString, s)
  end.

(** The body of a string literal up to its closing quote; a backslash, a
    line break or a missing quote is an error. *)
Fixpoint until_quote (q : ascii) (s : string) : option (string * string) :=
  match s with
  | EmptyString => None
  | String c rest =>
      if Ascii.eqb c q then Some (EmptyString, rest)
      else if (code c =? 92)%nat || (code c =? 10)%nat || (code c =? 13)%nat
      then None
      else '(body, more) ← until_quote q rest; Some (String c body, more)
  end.

Definition digits_to_Z (s : string) : Z :=
  foldl (fun acc c => (10 * acc + Z.of_nat (code c - 48))%Z) 0%Z
        (list_ascii_of_string s).

(** The decimal literals of the fragment: no leading zero, which would
    make the literal octal, and no integer above [2^53], which a number
    cannot hold exactly. *)
Definition is_decimal (digits : string) : bool :=
  match digits with
  | String "0" (String _ _) => false
  | _ => (digits_to_Z digits <=? 9007199254740992)%Z
  end.

Fixpoint lex (fuel : nat) (s : string) : option (list token) :=
  match fuel with
  | O => None
  | S fuel =>
      match s with
      | EmptyString => Some []
      | String c rest =>
          if is_space c then lex fuel rest
          else if is_digit c then
            let '(digits, more) := span is_digit s in
            if is_decimal digits then
              ts ← lex fuel more; Some (TNum (digits_to_Z digits) :: ts)
            else None
          else if is_ident_start c then
            let '(name, more) := span is_ident_part s in
            ts ← lex fuel more; Some (TIdent name :: ts)
          else if (code c =? 34)%nat || (code c =? 39)%nat then
            '(body, more) ← until_quote c rest;
            ts ← lex fuel more; Some (TStr body :: ts)
          else
            t ← (if (code c =? 123)%nat then Some TLBrace
                 else if (code c =? 125)%nat then Some TRBrace
                 else if (code c =? 91)%nat then Some TLBrack
                 else if (code c =? 93)%nat then Some TRBrack
                 else if (code c =? 58)%nat then Some TColon
                 else if (code c =? 44)%nat then Some TComma
                 else if (code c =? 61)%nat then Some TAssign
                 else None);
            ts ← lex fuel rest; Some (t :: ts)
      end
  end.

Definition keyword (name : string) : option value :=
  if String.eqb name "true" then Some (VBool true)
  else if String.eqb name "false" then Some (VBool false)
  else if String.eqb name "null" then Some VNull
  else if String.eqb name "undefined" then Some VUndefined
  else None.

(** The property names of the fragment: identifiers and strings.  A name
    made of digits is left out: an object lists its integer keys first,
    whatever the order they were written in. *)
Definition property_name (t : token) : option string :=
  match t with
  | TIdent name => Some name
  | TStr name =>
      if forallb is_digit (list_ascii_of_string name) then None else Some name
  | _ => None
  end.

(** The key of the entry that sets the prototype. *)
Definition is_proto_key (t : token) : bool :=
  match t with
  | TIdent name | TStr name => String.eqb name "__proto__"
  | _ => false
  end.

(** [{ __proto__: v }]: an object or [null] becomes the prototype, any
    other value is ignored. *)
Definition with_prototype (v : value) : value :=
  match v with
  | VNull | VArr _ | VObj _ | VErr _ _ | VProto _ => VProto v
  | _ => VObj []
  end.

Fixpoint parse_value (fuel : nat) (ts : list token)
  : option (value * list token) :=
  match fuel with
  | O => None
  | S fuel =>
      match ts with
      | TNum n :: rest => Some (VNum n, rest)
      | TStr s :: rest => Some (VStr s, rest)
      | TIdent name :: rest => v ← keyword name; Some (v, rest)
      | TLBrack :: TRBrack :: rest => Some (VArr [], rest)
      | TLBrack :: rest =>
          '(items, rest) ← parse_items fuel rest; Some (VArr items, rest)
      | TLBrace :: TRBrace :: rest => Some (VObj [], rest)
      | TLBrace :: rest =>
          match rest with
          | t :: TColon :: inner =>
              if is_proto_key t then
                '(v, rest) ← parse_value fuel inner;
                match rest with
                | TRBrace :: rest => Some (with_prototype v, rest)
                | _ => None
                end
              else
                '(props, rest) ← parse_members fuel rest [];
                Some (VObj props, rest)
          | _ => None
          end
      | _ => None
      end
  end
with parse_items (fuel : nat) (ts : list token)
  : option (list value * list token) :=
  match fuel with
  | O => None
  | S fuel =>
      '(v, rest) ← parse_value fuel ts;
      match rest with
      | TComma :: rest =>
          '(vs, rest) ← parse_items fuel rest; Some (v :: vs, rest)
      | TRBrack :: rest => Some ([v], rest)
      | _ => None
      end
  end
with parse_members (fuel : nat) (ts : list token) (acc : list (string * value))
  : option (list (string * value) * list token) :=
  match fuel with
  | O => None
  | S fuel =>
      match ts with
      | t :: TColon :: rest =>
          if is_proto_key t then None
          else
            k ← property_name t;
            '(v, rest) ← parse_value fuel rest;
            match rest with
            | TComma :: rest => parse_members fuel rest (set_prop k v acc)
            | TRBrace :: rest => Some (set_prop k v acc, rest)
            | _ => None
            end
      | _ => None
      end
  end.

(** The program [target = <literal>] and the value it leaves. *)
Definition run (text : string) : res value :=
  match lex (S (String.length text)) text with
  | Some (TIdent target :: TAssign :: []) =>
      Throw (SyntaxError "Unexpected end of input")
  | Some (TIdent target :: TAssign :: ts) =>
      match parse_value (S (length ts)) ts with
      | Some (v, []) => Return v
      | Some (_, _ :: _) => Throw (SyntaxError "Unexpected token")
      | None => Throw (SyntaxError "Unexpected token")
      end
  | _ => Throw (SyntaxError "Unexpected token")
  end.

(** [text] is text of the fragment, and [v] the value it denotes. *)
Definition denotes (text : string) (v : value) : Prop :=
  run ("__result = " +:+ text) = Return v.

Inductive style : Type := Json | Literal.

Definition quote (q : ascii) (s : string) : string :=
  String q
    (String.concat ""
       (map (fun c =>
               if Ascii.eqb c q || (code c =? 92)%nat
               then String "\" (String c EmptyString)
               else String c EmptyString)
            (list_ascii_of_string s))
     +:+ String q EmptyString).

Definition dquote : ascii := ascii_of_nat 34.

Definition is_identifier (s : string) : bool :=
  match s with
  | EmptyString => false
  | String c rest =>
      is_ident_start c && forallb is_ident_part (list_ascii_of_string rest)
  end.

Definition render_key (st : style) (k : string) : string :=
  match st with
  | Json => quote dquote k
  | Literal => if is_identifier k then k else quote "'" k
  end.

Definition bracket (opening closing gap indent : string) (parts : list string)
  : string :=
  match parts with
  | [] => opening +:+ closing
  | _ =>
      if String.eqb gap "" then
        opening +:+ String.concat "," parts +:+ closing
      else
        let nl := String (ascii_of_nat 10) EmptyString in
        opening +:+ nl +:+ indent +:+ gap
        +:+ String.concat ("," +:+ nl +:+ indent +:+ gap) parts
        +:+ nl +:+ indent +:+ closing
  end.

(** [None] is a value the stringifier leaves out. *)
Fixpoint render (st : style) (gap indent : string) (v : value)
  : option string :=
  match v with
  | VUndefined => match st with Json => None | Literal => Some "undefined" end
  | VNull => Some "null"
  | VBool b => Some (if b then "true" else "false")
  | VNum n => Some (pretty n)
  | VStr s =>
      Some (match st with Json => quote dquote s | Literal => quote "'" s end)
  | VArr items =>
      Some (bracket "[" "]" gap indent
              ((fix each (l : list value) : list string :=
                  match l with
                  | [] => []
                  | x :: rest =>
                      default "null" (render st gap (indent +:+ gap) x)
                      :: each rest
                  end) items))
  | VObj props =>
      Some (bracket "{" "}" gap indent
              ((fix each (l : list (string * value)) : list string :=
                  match l with
                  | [] => []
                  | kv :: rest =>
                      match render st gap (indent +:+ gap) kv.2 with
                      | Some s =>
                          (render_key st kv.1 +:+ ":"
                           +:+ (if String.eqb gap "" then "" else " ") +:+ s)
                          :: each rest
                      | None => each rest
                      end
                  end) props))
  | VErr name message =>
      match st with
      | Json => Some "{}"
      | Literal => Some ("new Error(" +:+ quote "'" message +:+ ")")
      end
  | VProto _ => Some "{}"
  end.

Definition spaces (indent : option nat) : string :=
  match indent with
  | Some n => String.concat "" (replicate n " ")
  | None => ""
  end.

Definition stringify (st : style) (v : value) (indent : option nat) : value :=
  match render st (spaces indent) "" v with
  | Some s => VStr s
  | None => VUndefined
  end.

Definition engine : Engine := {|
  evaluate := fun _ text => run text;
  EJSON_stringify := stringify Json;
  javascriptStringify := stringify Literal;
  accepts := fun text =>
    match text with
    | VStr s =>
        match run ("__result = " +:+ s) with
        | Return (VObj _) => true
        | _ => false
        end
    | _ => false
    end
|}.

End Reference.

(** ** The store's dispatch loop and the data services of the examples *)

(** The state a reducer reaches from [s] over the dispatched actions, as
    the store applies them one by one. *)
Definition after
    (reducer : option (gmap string value) -> action -> gmap string value)
    (s : gmap string value) (actions : list action) : gmap string value :=
  foldl (fun state a => reducer (Some state) a) s actions.

Module Fixture.

Definition people : Namespace :=
  {| database := "db"; collection := "people"; ns := "db.people" |}.

Definition ada : value := VObj [("name", VStr "Ada")].
Definition bob : value := VObj [("age", VNum 7)].

Definition timeout : value :=
  VErr "MongoError" "operation exceeded time limit".
Definition unauthorized : value :=
  VErr "MongoError" "not authorized on db to execute command".

(** A data service on which every method succeeds and finds nothing. *)
Definition idle : DataService :=
  {| listCollections := fun _ _ => (VNull, VArr []);
     command := fun _ _ => (VNull, VObj [("ok", VNum 1)]);
     find := fun _ _ _ => (VNull, VArr []);
     count := fun _ _ _ => (VNull, VNum 0);
     aggregate := fun _ _ _ => (VNull, {| toArray := (VNull, VArr []) |}) |}.

(** [listCollections] fails: its callback receives the error alone. *)
Definition listing_fails : DataService :=
  {| listCollections := fun _ _ => (unauthorized, VUndefined);
     command := command idle;
     find := find idle;
     count := count idle;
     aggregate := aggregate idle |}.

Definition is_negation (filter : value) : bool :=
  match filter with
  | VObj (("$nor", _) :: _) => true
  | _ => false
  end.

(** The plain lookup finds a document, the lookup under [$nor] fails. *)
Definition negation_fails : DataService :=
  {| listCollections := listCollections idle;
     command := command idle;
     find := fun _ filter _ =>
       if is_negation filter then (timeout, VUndefined) else (VNull, VArr [ada]);
     count := count idle;
     aggregate := aggregate idle |}.

(** Every [find] fails. *)
Definition find_fails : DataService :=
  {| listCollections := listCollections idle;
     command := command idle;
     find := fun _ _ _ => (timeout, VUndefined);
     count := count idle;
     aggregate := aggregate idle |}.

(** The root state with the given data service and validation state. *)
Definition store (service : option DataService)
    (validation sampleDocuments : gmap string value) : RootState :=
  {| dataService := service;
     namespace := people;
     validation := validation;
     sampleDocuments := sampleDocuments |}.

(** A validation state edited away from its defaults. *)
Definition edited : gmap string value :=
  <["validationLevel" := VStr "strict"]>
    (<["validationAction" := VStr "error"]>
       (<["isChanged" := VBool true]>
          (<["validator" := VStr "{ name: { $exists: true } }"]>
             Validation.INITIAL_STATE))).

(** The same state after a fetch took [{ a: 1 }] as its snapshot. *)
Definition fetched_then_edited : gmap string value :=
  <["prevValidator" := VStr "{ a: 1 }"]> edited.

(** An action creator to stand for the imported [syntaxErrorOccurred]. *)
Definition surfaced (error : value) : action :=
  Action "validation/SYNTAX_ERROR_OCCURRED" {[ "syntaxError" := error ]}.

(** A sample-documents state that shows the documents of the last fetch. *)
Definition shown : gmap string value :=
  <["notmatching" := bob]> (<["matching" := ada]> SampleDocuments.INITIAL_STATE).

End Fixture.

(** ** The validation editor component (unnamed/part_002) *)

Module ValidationEditor.

(** The properties the component reads: the validation state, the
    top-level error, and the two bound action creators its buttons call. *)
Record Props : Type := {
  validation : gmap string value;
  error : value;
  validatorSaved : value -> action;
  validatorCanceled : action
}.

(** What the render methods return: the box with the Update and Cancel
    buttons (with the action a click on each dispatches), the syntax-error
    box and the error box, each with the text it shows. *)
Inductive element : Type :=
| ChangedButtons (update cancel : action)
| SyntaxErrorBox (text : value)
| ErrorBox (text : value).

(** [onValidatorSave()] *)
Definition onValidatorSave (props : Props) : action :=
  validatorSaved props (prop (validation props) "validator").

(** [key.indexOf(c)] for a one-character [c]: the first position of [c],
    or [-1]. *)
Fixpoint indexOf (c : ascii) (key : string) : Z :=
  match key with
  | EmptyString => (-1)%Z
  | String c' rest =>
      if Ascii.eqb c c' then 0%Z
      else match indexOf c rest with
           | Zneg _ => (-1)%Z
           | i => (i + 1)%Z
           end
  end.

(** The template [`"${key}"`]. *)
Definition quoted (key : string) : string :=
  String (ascii_of_nat 34) (key +:+ String (ascii_of_nat 34) EmptyString).

(** [Object.keys(fields)], for an object held in enumeration order. *)
Definition Object_keys (fields : list (string * value)) : list string :=
  map fst fields.

Definition processFields (fields : list (string * value)) : list value :=
  map (fun key =>
         let field :=
           if (-1 <? indexOf "." key)%Z || (-1 <? indexOf " " key)%Z
           then quoted key else key in
         VObj [ ("name", VStr key);
                ("value", VStr field);
                ("score", VNum 1);
                ("meta", VStr "field");
                ("version", VStr "0.0.0") ])
      (Object_keys fields).

Definition renderValidationChangedButtons (props : Props) : option element :=
  if negb (truthy (error props))
     && negb (truthy (prop (validation props) "syntaxError"))
     && truthy (prop (validation props) "isChanged")
  then Some (ChangedButtons (onValidatorSave props) (validatorCanceled props))
  else None.

Definition renderSyntaxError (props : Props) : res (option element) :=
  if negb (truthy (error props))
     && truthy (prop (validation props) "syntaxError")
  then
    text ← get (prop (validation props) "syntaxError") "message";
    mret (Some (SyntaxErrorBox text))
  else mret None.

Definition renderError (props : Props) : res (option element) :=
  if truthy (error props) then
    text ← get (error props) "message";
    mret (Some (ErrorBox text))
  else mret None.

(** The children [render()] puts below the editor, in order; a method
    that returns nothing adds none. *)
Definition render (props : Props) : res (list element) :=
  let buttons := renderValidationChangedButtons props in
  syntaxError ← renderSyntaxError props;
  error ← renderError props;
  mret (omap id [buttons; syntaxError; error]).

End ValidationEditor.

(** ** The schema validation component (unnamed/part_000) *)

Module CompassSchemaValidation.

Definition MIN_VERSION : string := "3.2.0".

Definition READ_ONLY_WARNING : string :=
  "Schema validation on readonly views are not supported.".

Definition VERSION_WARNING : string :=
  "Compass no longer supports the visual rule builder for server versions below 3.2. To use the visual rule builder, please".

Definition HEADER : string := "Add validation rules".

Definition SUBTEXT : string :=
  "Create rules to enforce data structure of documents on updates and inserts.".

Definition DOC_SCHEMA_VALIDATION : string :=
  "https://docs.mongodb.com/manual/core/schema-validation/".

Definition DOC_UPGRADE_REVISION : string :=
  "https://docs.mongodb.com/manual/tutorial/upgrade-revision/".

(** The properties the render methods read. *)
Record Props : Type := {
  isZeroState : bool;
  isEditable : bool;
  serverVersion : string
}.

(** What the render methods return: a status row (its style, its text and
    the page its link opens, if it has one), the zero state (its header,
    its subtext, the class of its button and the page its link opens) and
    the content with the editor and the sample documents. *)
Inductive element : Type :=
| StatusRow (style text : string) (link : option string)
| ZeroState (header subtext buttonClass link : string)
| Content.

Section WithSemver.
(** [semver.gte] *)
Variable gte : string -> string -> bool.

Definition isProperServerVersion (props : Props) : bool :=
  gte (serverVersion props) MIN_VERSION.

Definition checkIfZeroState (props : Props) : bool :=
  isZeroState props || negb (isEditable props).

Definition renderBanner (props : Props) : option element :=
  if negb (isEditable props) then
    if isProperServerVersion props then
      Some (StatusRow "warning" READ_ONLY_WARNING None)
    else
      Some (StatusRow "warning" VERSION_WARNING (Some DOC_UPGRADE_REVISION))
  else None.

Definition renderZeroState (props : Props) : option element :=
  if checkIfZeroState props then
    Some (ZeroState HEADER SUBTEXT
            ("btn btn-primary btn-lg "
             +:+ (if negb (isEditable props) then "disabled" else ""))
            DOC_SCHEMA_VALIDATION)
  else None.

Definition renderContent (props : Props) : option element :=
  if negb (checkIfZeroState props) then Some Content else None.

(** The children of the root element, in order. *)
Definition render (props : Props) : list element :=
  omap id [renderBanner props; renderZeroState props; renderContent props].

End WithSemver.
End CompassSchemaValidation.

(** ** Data services for the runs that succeed *)

Module Scenario.

Definition carol : value := VObj [("name", VStr "Carol"); ("age", VNum 41)].

(** The options of a collection that has a validator and an action but no
    level. *)
Definition options : value :=
  VObj [ ("validator", VObj [("name", VObj [("$exists", VBool true)])]);
         ("validationAction", VStr "error") ].

(** A data service that lists one collection with these options, counts
    [counted] documents, finds [carol] for a plain lookup and nothing
    under [$nor]. *)
Definition service (counted : Z) : DataService :=
  {| listCollections := fun _ _ =>
       (VNull, VArr [VObj [("name", VStr "people"); ("options", options)]]);
     command := fun _ _ => (VErr "MongoError" "not authorized", VUndefined);
     find := fun _ filter _ =>
       if Fixture.is_negation filter then (VNull, VArr [])
       else (VNull, VArr [carol]);
     count := fun _ _ _ => (VNull, VNum counted);
     aggregate := fun _ stages _ =>
       match stages with
       | VArr l =>
           if existsb (fun stage =>
                         match stage with
                         | VObj [("$match", filter)] =>
                             Fixture.is_negation filter
                         | _ => false
                         end) l
           then (VNull, {| toArray := (VNull, VArr []) |})
           else (VNull, {| toArray := (VNull, VArr [carol]) |})
       | _ => (VNull, {| toArray := (VNull, VArr []) |})
       end |}.

(** The same data service for a collection without validation rules: the
    listing has the collection, with no options. *)
Definition plain : DataService :=
  {| listCollections := fun _ _ =>
       (VNull, VArr [VObj [("name", VStr "people")]]);
     command := command (service 0);
     find := find (service 0);
     count := count (service 0);
     aggregate := aggregate (service 0) |}.

End Scenario.

(** ** Engines that evaluate literals *)


(** ** The names a mapping table inherits *)

(** Each [MAPPINGS] is an object literal, so the lookup
    [MAPPINGS[action.type]] finds, besides the transitions the module
    registers, the properties every object inherits from
    [Object.prototype].  The reducer calls what it finds as
    [fn(state, action)], with no receiver. *)
Module Inherited.

(** The properties of [Object.prototype]: [constructor] is the function
    [Object]; [toString]; the methods that first convert their receiver to
    an object; and the accessor [__proto__], which reads as
    [Object.prototype] itself, an object and no function. *)
Inductive member : Type :=
| TheConstructor
| ToString
| OfReceiver (name : string)
| ThePrototype.

Definition Object_prototype (name : string) : option member :=
  if String.eqb name "constructor" then Some TheConstructor
  else if String.eqb name "toString" then Some ToString
  else if String.eqb name "__proto__" then Some ThePrototype
  else if existsb (String.eqb name)
            [ "toLocaleString"; "valueOf"; "hasOwnProperty"; "isPrototypeOf";
              "propertyIsEnumerable"; "__defineGetter__"; "__defineSetter__";
              "__lookupGetter__"; "__lookupSetter__" ]
  then Some (OfReceiver name)
  else None.

(** What a reducer returns: a state object, or a value that is none. *)
Inductive outcome : Type :=
| State (state : gmap string value)
| Other (v : value).

(** [fn(state, action)] for an inherited [fn] and a state object:
    [Object(state)] is [state]; [toString] names its missing receiver;
    the other methods throw on it, and calling [Object.prototype] throws
    as well.  The wording of the messages is the engine's. *)
Definition apply (fn : member) (state : gmap string value) : res outcome :=
  match fn with
  | TheConstructor => Return (State state)
  | ToString => Return (Other (VStr "[object Undefined]"))
  | OfReceiver _ =>
      Throw (TypeError "Cannot convert undefined or null to object")
  | ThePrototype => Throw (TypeError "fn is not a function")
  end.

(** The body the four reducers share, with the lookup as it is resolved:
    own properties first, then the inherited ones. *)
Definition reducer
    (MAPPINGS : gmap string (gmap string value -> action -> gmap string value))
    (INITIAL_STATE : gmap string value)
    (state : option (gmap string value)) (action : action) : res outcome :=
  let state := default INITIAL_STATE state in
  match MAPPINGS !! type action with
  | Some fn => Return (State (fn state action))
  | None =>
      match Object_prototype (type action) with
      | Some fn => apply fn state
      | None => Return (State state)
      end
  end.

(** The store's loop over that reducer: each action is reduced with the
    state the last one returned, as long as that is a state object.
    [None] once a call has thrown or returned another value: the model
    does not follow the store from there. *)
Fixpoint after
    (MAPPINGS : gmap string (gmap string value -> action -> gmap string value))
    (INITIAL_STATE : gmap string value)
    (s : gmap string value) (actions : list action)
  : option (gmap string value) :=
  match actions with
  | [] => Some s
  | a :: rest =>
      match reducer MAPPINGS INITIAL_STATE (Some s) a with
      | Return (State s') => after MAPPINGS INITIAL_STATE s' rest
      | _ => None
      end
  end.

End Inherited.

(** * Properties of the reducers *)

(** Rewrite a lookup through the inserts of a transition. *)
Ltac through_inserts :=
  repeat first
    [ rewrite lookup_insert_eq
    | rewrite lookup_insert_ne by (try discriminate; congruence) ];
  try reflexivity.

Section Reducers.
Context `{Engine}.
Implicit Types s p : gmap string value.

(** The mapping tables, entry by entry. *)
Lemma MAPPINGS_keys (k : string) :
  Validation.MAPPINGS !! k = None ↔
  k ∉ [ Validation.VALIDATOR_CHANGED; Validation.VALIDATOR_CANCELED;
        Validation.VALIDATOR_CREATED; Validation.VALIDATOR_SAVED;
        Validation.VALIDATION_ACTION_CHANGED;
        Validation.VALIDATION_LEVEL_CHANGED ].
Proof.
  unfold Validation.MAPPINGS.
  rewrite !lookup_insert_None, lookup_singleton_None, !not_elem_of_cons.
  pose proof (not_elem_of_nil k). intuition congruence.
Qed.

Lemma early_MAPPINGS_keys (k : string) :
  ValidationEarly.MAPPINGS !! k = None ↔
  k ∉ [ ValidationEarly.VALIDATOR_CHANGED; ValidationEarly.VALIDATOR_CANCELED;
        ValidationEarly.VALIDATOR_SAVED ].
Proof.
  unfold ValidationEarly.MAPPINGS.
  rewrite !lookup_insert_None, lookup_empty, !not_elem_of_cons.
  pose proof (not_elem_of_nil k). intuition congruence.
Qed.

Lemma sample_MAPPINGS_keys (k : string) :
  SampleDocuments.MAPPINGS !! k = None ↔
  k ∉ [ SampleDocuments.SAMPLE_DOCUMENTS_FETCHED;
        SampleDocuments.LOADING_SAMPLE_DOCUMENTS ].
Proof.
  unfold SampleDocuments.MAPPINGS.
  rewrite !lookup_insert_None, lookup_empty, !not_elem_of_cons.
  pose proof (not_elem_of_nil k). intuition congruence.
Qed.

(** The earlier revision registers no type the later one does not. *)
Lemma early_unregistered (k : string) :
  Validation.MAPPINGS !! k = None → ValidationEarly.MAPPINGS !! k = None.
Proof.
  rewrite MAPPINGS_keys, early_MAPPINGS_keys, !not_elem_of_cons.
  change ValidationEarly.VALIDATOR_CHANGED with Validation.VALIDATOR_CHANGED.
  change ValidationEarly.VALIDATOR_CANCELED with Validation.VALIDATOR_CANCELED.
  change ValidationEarly.VALIDATOR_SAVED with Validation.VALIDATOR_SAVED.
  intuition congruence.
Qed.

(** Each registered type runs its transition. *)
Lemma reducer_changed s p :
  Validation.reducer (Some s) (Action Validation.VALIDATOR_CHANGED p)
  = Validation.changeValidator s (Action Validation.VALIDATOR_CHANGED p).
Proof. reflexivity. Qed.

Lemma reducer_canceled s p :
  Validation.reducer (Some s) (Action Validation.VALIDATOR_CANCELED p)
  = Validation.cancelValidator s (Action Validation.VALIDATOR_CANCELED p).
Proof. reflexivity. Qed.

Lemma reducer_saved s p :
  Validation.reducer (Some s) (Action Validation.VALIDATOR_SAVED p)
  = Validation.updateValidator s (Action Validation.VALIDATOR_SAVED p).
Proof. reflexivity. Qed.

Lemma reducer_action_changed s p :
  Validation.reducer (Some s) (Action Validation.VALIDATION_ACTION_CHANGED p)
  = Validation.changeValidationAction s
      (Action Validation.VALIDATION_ACTION_CHANGED p).
Proof. reflexivity. Qed.

Lemma reducer_level_changed s p :
  Validation.reducer (Some s) (Action Validation.VALIDATION_LEVEL_CHANGED p)
  = Validation.changeValidationLevel s
      (Action Validation.VALIDATION_LEVEL_CHANGED p).
Proof. reflexivity. Qed.

Lemma early_reducer_saved s p :
  ValidationEarly.reducer (Some s) (Action ValidationEarly.VALIDATOR_SAVED p)
  = ValidationEarly.saveValidator s (Action ValidationEarly.VALIDATOR_SAVED p).
Proof. reflexivity. Qed.

Lemma early_reducer_canceled s p :
  ValidationEarly.reducer (Some s) (Action ValidationEarly.VALIDATOR_CANCELED p)
  = ValidationEarly.cancelValidator s
      (Action ValidationEarly.VALIDATOR_CANCELED p).
Proof. reflexivity. Qed.

(** C1 (as amended): for every state and every saved-validator action the
    SAVED transition returns a state with [isChanged = false],
    [syntaxError = null] and [validator] set to the text the action
    carries; [validationAction] and [validationLevel] keep their values,
    and neither an [error] nor a [prevValidation] property is written: the
    reducer has no such fields.  The earlier revision's [saveValidator] is
    the same transition. *)
Theorem saved_transition s p :
  let r := Validation.reducer (Some s) (Action Validation.VALIDATOR_SAVED p) in
  let r0 :=
    ValidationEarly.reducer (Some s)
      (Action ValidationEarly.VALIDATOR_SAVED p) in
  r !! "isChanged" = Some (VBool false)
  ∧ r !! "syntaxError" = Some VNull
  ∧ r !! "validator" = Some (prop p "validator")
  ∧ r !! "validationAction" = s !! "validationAction"
  ∧ r !! "validationLevel" = s !! "validationLevel"
  ∧ r !! "error" = s !! "error"
  ∧ r !! "prevValidation" = s !! "prevValidation"
  ∧ r0 = r.
Proof.
  intros r r0. subst r r0.
  rewrite reducer_saved, early_reducer_saved.
  unfold Validation.updateValidator, ValidationEarly.saveValidator. cbn.
  repeat split; through_inserts.
Qed.

(** C2 (as amended): for every state that holds a [prevValidator] snapshot,
    the CANCELED transition returns a state whose [validator] is that
    snapshot, with [isChanged = false] and [syntaxError = null];
    [validationAction] and [validationLevel] are no part of the snapshot
    and keep the values they have.  The earlier revision keeps no snapshot
    and resets [validator] to the empty text. *)
Theorem canceled_transition s p (snapshot : value) :
  s !! "prevValidator" = Some snapshot →
  let r :=
    Validation.reducer (Some s) (Action Validation.VALIDATOR_CANCELED p) in
  let r0 :=
    ValidationEarly.reducer (Some s)
      (Action ValidationEarly.VALIDATOR_CANCELED p) in
  r !! "validator" = Some snapshot
  ∧ r !! "isChanged" = Some (VBool false)
  ∧ r !! "syntaxError" = Some VNull
  ∧ r !! "validationAction" = s !! "validationAction"
  ∧ r !! "validationLevel" = s !! "validationLevel"
  ∧ r !! "prevValidator" = Some snapshot
  ∧ r0 !! "validator" = Some (VStr "")
  ∧ r0 !! "isChanged" = Some (VBool false)
  ∧ r0 !! "syntaxError" = Some VNull.
Proof.
  intros Hsnap r r0. subst r r0.
  rewrite reducer_canceled, early_reducer_canceled.
  unfold Validation.cancelValidator, ValidationEarly.cancelValidator, prop.
  rewrite Hsnap. cbn.
  repeat split; through_inserts. exact Hsnap.
Qed.

(** C3 (as amended): for every state, the validator-changed transition
    with the empty text yields [isChanged = true], keeps the empty text as
    [validator], and sets [syntaxError] to what the checker reports for it:
    there is no short cut for the empty text, the sandbox is asked to run
    [__result = ] and the error it throws, if any, becomes the syntax
    error. *)
Theorem empty_text_is_evaluated s :
  let r :=
    Validation.reducer (Some s) (Validation.validatorChanged (VStr "")) in
  r !! "isChanged" = Some (VBool true)
  ∧ r !! "validator" = Some (VStr "")
  ∧ r !! "syntaxError"
    = Some (match evaluate (Validation.getQuerySandbox ++ ["__result"])
                    "__result = " with
            | Return _ => VNull
            | Throw error => error
            end).
Proof.
  intros r. subst r. unfold Validation.validatorChanged.
  rewrite reducer_changed.
  unfold Validation.changeValidator, Validation.checkValidator,
    Validation.executeJavascript, prop.
  cbn. rewrite lookup_singleton_eq. cbn.
  repeat split; through_inserts.
  by destruct (evaluate _ _).
Qed.

(** C7 (as amended): for every state, the ACTION_CHANGED and LEVEL_CHANGED
    transitions set [validationAction] (respectively [validationLevel]) to
    the value the action carries and write nothing else: [isChanged] and
    [syntaxError] keep their values. *)
Theorem action_and_level_transitions s (v : value) :
  let ra :=
    Validation.reducer (Some s) (Validation.validationActionChanged v) in
  let rl :=
    Validation.reducer (Some s) (Validation.validationLevelChanged v) in
  (ra = <["validationAction" := v]> s
   ∧ ra !! "validationAction" = Some v
   ∧ ra !! "isChanged" = s !! "isChanged"
   ∧ ra !! "syntaxError" = s !! "syntaxError")
  ∧ (rl = <["validationLevel" := v]> s
     ∧ rl !! "validationLevel" = Some v
     ∧ rl !! "isChanged" = s !! "isChanged"
     ∧ rl !! "syntaxError" = s !! "syntaxError").
Proof.
  intros ra rl. subst ra rl.
  unfold Validation.validationActionChanged, Validation.validationLevelChanged.
  rewrite reducer_action_changed, reducer_level_changed.
  unfold Validation.changeValidationAction, Validation.changeValidationLevel,
    prop.
  cbn. rewrite !lookup_singleton_eq. cbn.
  repeat split; through_inserts.
Qed.

(** The names [Object.prototype] holds are not action types of the
    modules. *)
Lemma registered_off_prototype (k : string) :
  Inherited.Object_prototype k = None ∨
  (Validation.MAPPINGS !! k = None
   ∧ ValidationEarly.MAPPINGS !! k = None
   ∧ SampleDocuments.MAPPINGS !! k = None
   ∧ SampleDocumentsEarly.MAPPINGS !! k = None).
Proof.
  destruct (Inherited.Object_prototype k) as [fn|] eqn:Hfn; [right|by left].
  unfold Inherited.Object_prototype in Hfn. cbn [existsb] in Hfn.
  repeat match type of Hfn with
         | context [String.eqb k ?name] =>
             destruct (String.eqb_spec k name) as [->|_]
         end;
    try (cbn in Hfn; discriminate);
    repeat split; vm_compute; reflexivity.
Qed.

(** On an action type that names no property of [Object.prototype] the
    lookup finds what the module registers and no more: the reducers
    return what [reducer] of each module computes. *)
Lemma reducer_off_prototype (st : option (gmap string value)) (a : action) :
  Inherited.Object_prototype (type a) = None →
  Inherited.reducer Validation.MAPPINGS Validation.INITIAL_STATE st a
  = Return (Inherited.State (Validation.reducer st a))
  ∧ Inherited.reducer ValidationEarly.MAPPINGS ValidationEarly.INITIAL_STATE
      st a
    = Return (Inherited.State (ValidationEarly.reducer st a))
  ∧ Inherited.reducer SampleDocuments.MAPPINGS SampleDocuments.INITIAL_STATE
      st a
    = Return (Inherited.State (SampleDocuments.reducer st a))
  ∧ Inherited.reducer SampleDocumentsEarly.MAPPINGS
      SampleDocumentsEarly.INITIAL_STATE st a
    = Return (Inherited.State (SampleDocumentsEarly.reducer st a)).
Proof.
  intros Hplain.
  unfold Inherited.reducer, Validation.reducer, ValidationEarly.reducer,
    SampleDocuments.reducer, SampleDocumentsEarly.reducer.
  rewrite Hplain. cbn zeta.
  repeat split.
  - by destruct (Validation.MAPPINGS !! type a).
  - by destruct (ValidationEarly.MAPPINGS !! type a).
  - by destruct (SampleDocuments.MAPPINGS !! type a).
  - by destruct (SampleDocumentsEarly.MAPPINGS !! type a).
Qed.

(** An action whose type is neither registered nor a property of
    [Object.prototype] is the identity. *)
Lemma unknown_type_is_identity (s : gmap string value) (a : action) :
  Inherited.Object_prototype (type a) = None →
  Validation.MAPPINGS !! type a = None →
  Inherited.reducer Validation.MAPPINGS Validation.INITIAL_STATE (Some s) a
  = Return (Inherited.State s)
  ∧ Inherited.reducer Validation.MAPPINGS Validation.INITIAL_STATE None a
    = Return (Inherited.State Validation.INITIAL_STATE).
Proof.
  intros Hplain Hnone. unfold Inherited.reducer.
  rewrite Hplain, Hnone. split; reflexivity.
Qed.

(** C10, the defect: [toString] and [hasOwnProperty] are registered in no
    mapping table, yet an action of type [toString] makes the validation
    reducer and the sample-documents reducer return the string
    [[object Undefined]] in place of the state, and an action of type
    [hasOwnProperty] makes both throw a TypeError: the lookup
    [MAPPINGS[action.type]] finds the methods the table inherits, and the
    reducer calls them. *)
Theorem inherited_type_is_not_identity (st : option (gmap string value))
    (p : gmap string value) :
  (Validation.MAPPINGS !! "toString" = None
   ∧ Validation.MAPPINGS !! "hasOwnProperty" = None
   ∧ SampleDocumentsEarly.MAPPINGS !! "toString" = None
   ∧ SampleDocumentsEarly.MAPPINGS !! "hasOwnProperty" = None)
  ∧ Inherited.reducer Validation.MAPPINGS Validation.INITIAL_STATE st
      (Action "toString" p)
    = Return (Inherited.Other (VStr "[object Undefined]"))
  ∧ Inherited.reducer SampleDocumentsEarly.MAPPINGS
      SampleDocumentsEarly.INITIAL_STATE st (Action "toString" p)
    = Return (Inherited.Other (VStr "[object Undefined]"))
  ∧ (∃ message,
       Inherited.reducer Validation.MAPPINGS Validation.INITIAL_STATE st
         (Action "hasOwnProperty" p)
       = Throw (TypeError message))
  ∧ (∃ message,
       Inherited.reducer SampleDocumentsEarly.MAPPINGS
         SampleDocumentsEarly.INITIAL_STATE st (Action "hasOwnProperty" p)
       = Throw (TypeError message)).
Proof.
  assert (Validation.MAPPINGS !! "toString" = None
          ∧ Validation.MAPPINGS !! "hasOwnProperty" = None
          ∧ SampleDocumentsEarly.MAPPINGS !! "toString" = None
          ∧ SampleDocumentsEarly.MAPPINGS !! "hasOwnProperty" = None)
    as (Hv1 & Hv2 & Hs1 & Hs2).
  { destruct (registered_off_prototype "toString")
      as [Hno|(? & _ & _ & ?)]; [discriminate|].
    destruct (registered_off_prototype "hasOwnProperty")
      as [Hno|(? & _ & _ & ?)]; [discriminate|].
    by repeat split. }
  split; [by repeat split|].
  unfold Inherited.reducer. cbn [type].
  rewrite Hv1, Hv2, Hs1, Hs2.
  repeat split; try reflexivity; eexists; reflexivity.
Qed.

End Reducers.

(** * Properties of the checker *)

Section Checker.
Context `{Engine}.





(** In the earlier revision a successful check returns the EJSON text of
    the evaluated value. *)
Lemma early_check_success (input parsed : value) :
  Validation.executeJavascript input Validation.getQuerySandbox
  = Return parsed →
  Validation.validator (ValidationEarly.checkValidator input)
  = EJSON_stringify parsed None.
Proof. intros Hrun. unfold ValidationEarly.checkValidator. by rewrite Hrun. Qed.

(** In the earlier revision the output is EJSON text: no syntax error is
    reported when the language model accepts it, and checking it again
    returns it when the text evaluates to a value with the same EJSON
    text. *)
Lemma early_check_is_idempotent (input parsed parsed' : value) (text : string) :
  Validation.executeJavascript input Validation.getQuerySandbox
  = Return parsed →
  EJSON_stringify parsed None = VStr text →
  accepts (VStr text) = true →
  Validation.executeJavascript (VStr text) Validation.getQuerySandbox
  = Return parsed' →
  EJSON_stringify parsed' None = VStr text →
  let checked := ValidationEarly.checkValidator input in
  Validation.syntaxError checked = VNull
  ∧ Validation.validator checked = VStr text
  ∧ Validation.validator
      (ValidationEarly.checkValidator (Validation.validator checked))
    = Validation.validator checked.
Proof.
  intros Hrun Htext Haccepted Hrun' Htext' checked. subst checked.
  rewrite (early_check_success _ _ Hrun), Htext.
  split; [|split; [reflexivity|]].
  - unfold ValidationEarly.checkValidator. rewrite Hrun. cbn.
    by rewrite Htext, Haccepted.
  - by rewrite (early_check_success _ _ Hrun').
Qed.

End Checker.

(** * Properties of the thunks *)

(** The events of a bind, piece by piece. *)
Section Runs.
Context {A : Type}.
Implicit Types (k : unit -> io A).

Lemma dispatched_dispatch (a : action) k :
  dispatched (dispatch a ≫= k) = a :: dispatched (k tt).
Proof. unfold dispatched. cbn. by destruct (k tt). Qed.

Lemma dispatched_call (method : string) (args : list value) k :
  dispatched (call method args ≫= k) = dispatched (k tt).
Proof. unfold dispatched. cbn. by destruct (k tt). Qed.

Lemma result_dispatch (a : action) k : (dispatch a ≫= k).2 = (k tt).2.
Proof. cbn. by destruct (k tt). Qed.

Lemma result_call (method : string) (args : list value) k :
  (call method args ≫= k).2 = (k tt).2.
Proof. cbn. by destruct (k tt). Qed.

Lemma lift_return {B : Type} (b : B) (k : B -> io A) :
  lift (Return b) ≫= k = k b.
Proof. cbn. by destruct (k b). Qed.

Lemma lift_throw {B : Type} (e : value) (k : B -> io A) :
  lift (Throw e) ≫= k = ([], Throw e).
Proof. reflexivity. Qed.
End Runs.

Section Thunks.
Context `{Engine}.
Variable syntaxErrorOccurred : value -> action.

(** What [saveValidation] sends: the command names the collection and
    carries the checked validator and the level ['moderate']; no property
    of the validation state is read. *)
Lemma save_command (input : value) (state : RootState) (service : DataService) :
  dataService state = Some service →
  (Validation.saveValidation input state).1
  = [ Called "command"
        [ VStr (database (namespace state));
          VObj [ ("collMod", VStr (collection (namespace state)));
                 ("validator",
                  Validation.validator (Validation.checkValidator input));
                 ("validationLevel", VStr "moderate") ] ];
      Dispatched (Validation.validatorSaved input) ].
Proof.
  intros Hservice. unfold Validation.saveValidation. rewrite Hservice.
  cbn. by destruct (command service _ _).
Qed.

(** A failed listing whose callback receives no data: [data[0]] throws
    before the error is looked at. *)
Lemma fetch_without_data (target : Namespace) (state : RootState)
    (service : DataService) (error : value) :
  dataService state = Some service →
  listCollections service (database target)
    (VObj [("name", VStr (collection target))]) = (error, VUndefined) →
  ∃ thrown,
    (Validation.fetchValidation target state).2 = Throw thrown
    ∧ dispatched (Validation.fetchValidation target state) = []
    ∧ (ValidationEarly.fetchValidation target state).2 = Throw thrown.
Proof.
  intros Hservice Hreply.
  unfold Validation.fetchValidation, ValidationEarly.fetchValidation.
  rewrite Hservice. cbn. rewrite Hreply. cbn. by eexists.
Qed.

(** With no data service the loading action is all a fetch dispatches, in
    both revisions. *)
Lemma fetch_without_service (input : value) (state : RootState) :
  dataService state = None →
  dispatched
    (SampleDocuments.fetchSampleDocuments syntaxErrorOccurred input state)
  = [SampleDocuments.loadingSampleDocuments]
  ∧ dispatched (SampleDocumentsEarly.fetchSampleDocuments input state)
    = [SampleDocumentsEarly.loadingSampleDocuments].
Proof.
  intros Hnone.
  unfold SampleDocuments.fetchSampleDocuments,
    SampleDocumentsEarly.fetchSampleDocuments.
  rewrite Hnone. split; reflexivity.
Qed.

(** [zeroDocuments] surfaces the error and resets both samples. *)
Lemma zeroDocuments_events (error : value) :
  dispatched (SampleDocuments.zeroDocuments syntaxErrorOccurred error)
  = [ syntaxErrorOccurred error;
      SampleDocuments.sampleDocumentsFetched
        [("matching", VNull); ("notmatching", VNull)] ]
  ∧ (SampleDocuments.zeroDocuments syntaxErrorOccurred error).2 = Return tt.
Proof. split; reflexivity. Qed.

(** One [getSampleDocuments] call either resets the samples through
    [zeroDocuments], with the error of its aggregation or of its cursor,
    or goes on with the documents. *)
Lemma getSampleDocuments_cases (docsOptions : SampleDocuments.DocsOptions)
    (callback : SampleDocuments.DocsOptions -> value -> io unit) :
  let run :=
    SampleDocuments.getSampleDocuments syntaxErrorOccurred docsOptions
      callback in
  (∃ error, truthy error = true
            ∧ dispatched run
              = [ syntaxErrorOccurred error;
                  SampleDocuments.sampleDocumentsFetched
                    [("matching", VNull); ("notmatching", VNull)] ]
            ∧ run.2 = Return tt)
  ∨ (∃ docsOptions' documents,
       dispatched run = dispatched (callback docsOptions' documents)
       ∧ run.2 = (callback docsOptions' documents).2).
Proof.
  intros run. subst run. unfold SampleDocuments.getSampleDocuments.
  set (options := if SampleDocuments.over_limit _ then _ else docsOptions).
  clearbody options.
  rewrite dispatched_call, result_call.
  destruct (aggregate _ _ _ _) as [aggError cursor].
  destruct (truthy aggError) eqn:Hagg.
  { left. exists aggError. by repeat split. }
  rewrite dispatched_call, result_call.
  destruct (toArray cursor) as [toArrayError documents].
  destruct (truthy toArrayError) eqn:Harr.
  { left. exists toArrayError. by repeat split. }
  right. exists options, documents.
  by rewrite dispatched_call, result_call.
Qed.

(** The last callback reports the first document of each lookup, unless
    a reply without documents makes [documents[0]] throw. *)
Lemma report_cases (matching notmatching : value) :
  let run : io unit :=
    m ← lift (first_or_null matching);
    n ← lift (first_or_null notmatching);
    dispatch (SampleDocuments.sampleDocumentsFetched
                [("matching", m); ("notmatching", n)]) in
  (∃ m n, dispatched run
          = [SampleDocuments.sampleDocumentsFetched
               [("matching", m); ("notmatching", n)]])
  ∨ (∃ thrown, run.2 = Throw thrown).
Proof.
  intros run. subst run.
  destruct (first_or_null matching) as [m|thrown].
  2:{ right. by exists thrown. }
  rewrite lift_return.
  destruct (first_or_null notmatching) as [n|thrown].
  2:{ right. by exists thrown. }
  rewrite lift_return. left. by exists m, n.
Qed.

(** The later revision settles every fetch that reaches the data
    service: the loading action is followed either by the surfaced error
    and a reset of both samples, or by the two samples, unless a reply
    without documents makes [documents[0]] throw. *)
Lemma fetch_outcomes (input : value) (state : RootState)
    (service : DataService) :
  dataService state = Some service →
  let run :=
    SampleDocuments.fetchSampleDocuments syntaxErrorOccurred input state in
  (∃ error, truthy error = true
            ∧ dispatched run
              = [ SampleDocuments.loadingSampleDocuments;
                  syntaxErrorOccurred error;
                  SampleDocuments.sampleDocumentsFetched
                    [("matching", VNull); ("notmatching", VNull)] ])
  ∨ (∃ matching notmatching,
       dispatched run
       = [ SampleDocuments.loadingSampleDocuments;
           SampleDocuments.sampleDocumentsFetched
             [("matching", matching); ("notmatching", notmatching)] ])
  ∨ (∃ thrown, run.2 = Throw thrown).
Proof.
  intros Hservice run. subst run.
  unfold SampleDocuments.fetchSampleDocuments. rewrite Hservice.
  set (query := Validation.validator _).
  rewrite dispatched_dispatch, result_dispatch, dispatched_call, result_call.
  destruct (count service _ query _) as [countError counted].
  destruct (truthy countError) eqn:Hfail.
  { left. exists countError. by split. }
  match goal with
  | |- context [SampleDocuments.getSampleDocuments _ ?o ?k] =>
      destruct (getSampleDocuments_cases o k)
        as [(error & Herror & -> & _)|(o1 & matching & -> & ->)]
  end.
  { left. by exists error. }
  match goal with
  | |- context [SampleDocuments.getSampleDocuments _ ?o ?k] =>
      destruct (getSampleDocuments_cases o k)
        as [(error & Herror & -> & _)|(o2 & notmatching & -> & ->)]
  end.
  { left. by exists error. }
  destruct (report_cases matching notmatching)
    as [(m & n & ->)|(thrown & ->)].
  - right; left. by exists m, n.
  - right; right. by exists thrown.
Qed.
(** In the later revision a failing count, matching lookup or negation
    lookup (its aggregation or its cursor) ends the fetch with that error
    surfaced and both samples reset. *)
Lemma failure_resets_both (input : value) (state : RootState)
    (service : DataService) :
  dataService state = Some service →
  let query :=
    Validation.validator
      (Validation.checkValidator
         (Validation.validator (Validation.checkValidator input))) in
  let counted := count service (ns (namespace state)) query (VObj []) in
  let lookup stages :=
    aggregate service (ns (namespace state))
      (VArr (if SampleDocuments.over_limit counted.2
             then VObj [("$limit", VNum SampleDocuments.MAX_LIMIT)] :: stages
             else stages))
      (VObj [("allowDiskUse", VBool true)]) in
  let failure stages : option value :=
    if truthy (lookup stages).1 then Some (lookup stages).1
    else if truthy (toArray (lookup stages).2).1
         then Some (toArray (lookup stages).2).1
         else None in
  let run :=
    SampleDocuments.fetchSampleDocuments syntaxErrorOccurred input state in
  ∀ error,
    (if truthy counted.1 then Some counted.1
     else match failure [VObj [("$match", query)]; VObj [("$limit", VNum 1)]]
          with
          | Some e => Some e
          | None =>
              failure [ VObj [("$match", VObj [("$nor", VArr [query])])];
                        VObj [("$limit", VNum 1)] ]
          end) = Some error →
    truthy error = true
    ∧ dispatched run
      = [ SampleDocuments.loadingSampleDocuments;
          syntaxErrorOccurred error;
          SampleDocuments.sampleDocumentsFetched
            [("matching", VNull); ("notmatching", VNull)] ]
    ∧ run.2 = Return tt.
Proof.
  intros Hservice query counted lookup failure run error. subst run.
  unfold SampleDocuments.fetchSampleDocuments. rewrite Hservice.
  fold query. subst failure lookup counted. clearbody query. cbn beta.
  rewrite dispatched_dispatch, result_dispatch, dispatched_call, result_call.
  destruct (count service _ query _) as [countError number].
  cbn [fst snd].
  destruct (truthy countError) eqn:Hfail.
  { intros [= <-]. by repeat split. }
  unfold SampleDocuments.getSampleDocuments.
  cbn [SampleDocuments.docsCount].
  destruct (SampleDocuments.over_limit number) eqn:Hover;
    cbn [SampleDocuments.docsCount SampleDocuments.pipeline
         SampleDocuments.docsNamespace SampleDocuments.docsDataService];
    rewrite ?Hover;
    cbn [SampleDocuments.docsCount SampleDocuments.pipeline
         SampleDocuments.docsNamespace SampleDocuments.docsDataService].
  all: rewrite dispatched_call, result_call.
  all: match goal with
       | |- context [aggregate ?s ?n ?p ?o] =>
           destruct (aggregate s n p o) as [aggError cursor]
       end; cbn [fst snd];
       destruct (truthy aggError) eqn:Hagg;
       [ intros [= <-]; by repeat split |].
  all: rewrite dispatched_call, result_call;
       destruct (toArray cursor) as [toArrayError documents]; cbn [fst snd];
       destruct (truthy toArrayError) eqn:Harr;
       [ intros [= <-]; by repeat split |].
  all: rewrite !dispatched_call, !result_call.
  all: match goal with
       | |- context [aggregate ?s ?n ?p ?o] =>
           destruct (aggregate s n p o) as [aggError' cursor']
       end; cbn [fst snd];
       destruct (truthy aggError') eqn:Hagg';
       [ intros [= <-]; by repeat split |].
  all: rewrite dispatched_call, result_call;
       destruct (toArray cursor') as [toArrayError' documents']; cbn [fst snd];
       destruct (truthy toArrayError') eqn:Harr';
       [ intros [= <-]; by repeat split | discriminate ].
Qed.

(** In the earlier revision a lookup that fails ends the fetch with
    nothing dispatched after the loading action. *)
Lemma early_failure_is_dropped (input : value) (state : RootState)
    (service : DataService) :
  dataService state = Some service →
  let query :=
    Validation.validator
      (Validation.checkValidator
         (Validation.validator (Validation.checkValidator input))) in
  let lookup filter :=
    find service (ns (namespace state)) filter SampleDocumentsEarly.OPTIONS in
  let run := SampleDocumentsEarly.fetchSampleDocuments input state in
  truthy (lookup query).1 = true
  ∨ truthy (lookup (VObj [("$nor", VArr [query])])).1 = true →
  dispatched run = [SampleDocumentsEarly.loadingSampleDocuments]
  ∧ run.2 = Return tt.
Proof.
  intros Hservice query lookup run Hfail. subst run lookup.
  unfold SampleDocumentsEarly.fetchSampleDocuments. rewrite Hservice.
  fold query. clearbody query. cbn beta in Hfail.
  rewrite dispatched_dispatch, result_dispatch, dispatched_call, result_call.
  destruct (find service _ query _) as [matchingError matching].
  cbn [fst] in Hfail.
  destruct (truthy matchingError); [by split|]. cbn [negb].
  rewrite dispatched_call, result_call.
  destruct (find service _ (VObj _) _) as [notmatchingError notmatching].
  cbn [fst] in Hfail.
  destruct Hfail as [Hfail|Hfail]; [discriminate|].
  rewrite Hfail. by split.
Qed.

(** Every fetch starts by showing itself as loading, in both revisions. *)
Lemma fetch_starts_loading (input : value) (state : RootState)
    (s : gmap string value) :
  (∃ rest,
     dispatched
       (SampleDocuments.fetchSampleDocuments syntaxErrorOccurred input state)
     = SampleDocuments.loadingSampleDocuments :: rest)
  ∧ (∃ rest,
       dispatched (SampleDocumentsEarly.fetchSampleDocuments input state)
       = SampleDocumentsEarly.loadingSampleDocuments :: rest)
  ∧ SampleDocuments.reducer (Some s) SampleDocuments.loadingSampleDocuments
    !! "isLoading" = Some (VBool true).
Proof.
  unfold SampleDocuments.fetchSampleDocuments,
    SampleDocumentsEarly.fetchSampleDocuments.
  rewrite !dispatched_dispatch.
  repeat split; [by eexists | by eexists |].
  change (SampleDocuments.reducer (Some s)
            SampleDocuments.loadingSampleDocuments)
    with (SampleDocuments.loadSampleDocuments s
            SampleDocuments.loadingSampleDocuments).
  unfold SampleDocuments.loadSampleDocuments. through_inserts.
Qed.

(** In the later revision a fetch that reaches the data service and
    returns dispatches [SAMPLE_DOCUMENTS_FETCHED] once, after which the
    store no longer shows it as loading; the action that surfaces an error
    is taken to be one of another module. *)
Lemma fetch_settles_once (input : value) (state : RootState)
    (service : DataService) (s : gmap string value) :
  dataService state = Some service →
  (∀ error, SampleDocuments.MAPPINGS !! type (syntaxErrorOccurred error) = None) →
  let run :=
    SampleDocuments.fetchSampleDocuments syntaxErrorOccurred input state in
  run.2 = Return tt →
  length (filter (λ a, type a = SampleDocuments.SAMPLE_DOCUMENTS_FETCHED)
                 (dispatched run)) = 1%nat
  ∧ after SampleDocuments.reducer s (dispatched run) !! "isLoading"
    = Some (VBool false).
Proof.
  intros Hservice Hother run Hreturns.
  assert (∀ error,
            type (syntaxErrorOccurred error)
            ≠ SampleDocuments.SAMPLE_DOCUMENTS_FETCHED) as Hdistinct.
  { intros error Heq. specialize (Hother error). rewrite Heq in Hother.
    apply sample_MAPPINGS_keys in Hother. apply Hother. left. }
  destruct (fetch_outcomes input state service Hservice)
    as [(error & _ & Hlog)|[(m & n & Hlog)|(thrown & Hthrown)]];
    fold run in Hlog || fold run in Hthrown.
  - rewrite Hlog. split.
    + rewrite filter_cons_False by discriminate.
      rewrite filter_cons_False by apply Hdistinct.
      by rewrite filter_cons_True.
    + unfold after. cbn [foldl].
      unfold SampleDocuments.reducer at 2. rewrite Hother. cbn [default].
      change (SampleDocuments.reducer (Some ?x)
                (SampleDocuments.sampleDocumentsFetched ?d))
        with (SampleDocuments.refreshSampleDocuments x
                (SampleDocuments.sampleDocumentsFetched d)).
      unfold SampleDocuments.refreshSampleDocuments. through_inserts.
  - rewrite Hlog. split.
    + rewrite filter_cons_False by discriminate.
      by rewrite filter_cons_True.
    + unfold after. cbn [foldl].
      change (SampleDocuments.reducer (Some ?x)
                (SampleDocuments.sampleDocumentsFetched ?d))
        with (SampleDocuments.refreshSampleDocuments x
                (SampleDocuments.sampleDocumentsFetched d)).
      unfold SampleDocuments.refreshSampleDocuments. through_inserts.
  - rewrite Hreturns in Hthrown. discriminate.
Qed.

End Thunks.

(** * The transitions and thunks on concrete inputs *)

(** The reducers and thunks below run on the reference engine. *)
Section Examples.
Existing Instance Reference.engine.

(** The cases of the repository's test-suite that this revision of the
    module meets. *)
Example spec_checkValidator :
  Validation.checkValidator (VStr "{ $jsonSchema: { bsonType: 'object' } }")
  = {| Validation.syntaxError := VNull;
       Validation.validator :=
         VObj [("$jsonSchema", VObj [("bsonType", VStr "object")])] |}.
Proof. vm_compute. reflexivity. Qed.

Example spec_validator_changed :
  Validation.reducer None
    (Validation.validatorChanged (VStr "{ name: { $type: 4 } }")) !! "validator"
  = Some (VStr "{ name: { $type: 4 } }").
Proof. vm_compute. reflexivity. Qed.

Example spec_unknown_action :
  Validation.reducer None (Action "UNKNOWN" ∅) !! "validator" = Some (VStr "").
Proof. vm_compute. reflexivity. Qed.

(** C1, refuted as stated: after a fetch took [{ a: 1 }] as the snapshot
    and the user typed and saved [{ name: { $exists: true } }], the state
    has no [error] and no [prevValidation] property, and [prevValidator]
    still is the text of the fetch. *)
Lemma saved_counterexample :
  let saved := VStr "{ name: { $exists: true } }" in
  let r :=
    Validation.reducer (Some Fixture.fetched_then_edited)
      (Validation.validatorSaved saved) in
  (r !! "error" = None
   ∧ r !! "prevValidation" = None
   ∧ r !! "prevValidator" = Some (VStr "{ a: 1 }"))
  ∧ ¬ (r !! "isChanged" = Some (VBool false)
       ∧ r !! "syntaxError" = Some VNull
       ∧ r !! "error" = Some VNull
       ∧ r !! "prevValidation"
         = Some (VObj [ ("validator", saved);
                        ("validationAction", VStr "error");
                        ("validationLevel", VStr "strict") ])).
Proof.
  split.
  - repeat split; vm_compute; reflexivity.
  - intros (_ & _ & Herror & _). vm_compute in Herror. discriminate.
Qed.

(** C2, refuted as stated: with no snapshot, cancelling after the action
    was changed to [error] leaves the action at [error], not at the
    initial [warning], and the validator reads [undefined], not the
    initial empty text. *)
Lemma canceled_counterexample :
  let r :=
    Validation.reducer (Some Fixture.edited) Validation.validatorCanceled in
  (r !! "validationAction" = Some (VStr "error")
   ∧ r !! "validationLevel" = Some (VStr "strict")
   ∧ r !! "validator" = Some VUndefined)
  ∧ ¬ (r !! "validator" = Validation.INITIAL_STATE !! "validator"
       ∧ r !! "validationAction" = Validation.INITIAL_STATE !! "validationAction"
       ∧ r !! "validationLevel" = Validation.INITIAL_STATE !! "validationLevel"
       ∧ r !! "isChanged" = Some (VBool false)
       ∧ r !! "syntaxError" = Some VNull).
Proof.
  split.
  - repeat split; vm_compute; reflexivity.
  - intros (_ & Haction & _). vm_compute in Haction. discriminate.
Qed.

Lemma canceled_transition_witness :
  Fixture.fetched_then_edited !! "prevValidator" = Some (VStr "{ a: 1 }")
  ∧ Validation.reducer (Some Fixture.fetched_then_edited)
      Validation.validatorCanceled !! "validator"
    = Some (VStr "{ a: 1 }").
Proof.
  split.
  - vm_compute. reflexivity.
  - refine (proj1 (canceled_transition Fixture.fetched_then_edited ∅
                     (VStr "{ a: 1 }") _)).
    vm_compute. reflexivity.
Defined.

(** C3, refuted as stated: the empty text leaves a syntax error, the one
    the engine throws for [__result = ]. *)
Lemma empty_text_counterexample :
  let r :=
    Validation.reducer (Some Validation.INITIAL_STATE)
      (Validation.validatorChanged (VStr "")) in
  r !! "syntaxError" = Some (SyntaxError "Unexpected end of input")
  ∧ ¬ (r !! "isChanged" = Some (VBool true) ∧ r !! "syntaxError" = Some VNull).
Proof.
  split.
  - vm_compute. reflexivity.
  - intros (_ & Herror). vm_compute in Herror. discriminate.
Qed.

(** C7, refuted as stated: changing the action of the initial state
    leaves [isChanged] false, and so does changing the level. *)
Lemma action_change_counterexample :
  let ra :=
    Validation.reducer (Some Validation.INITIAL_STATE)
      (Validation.validationActionChanged (VStr "error")) in
  let rl :=
    Validation.reducer (Some Validation.INITIAL_STATE)
      (Validation.validationLevelChanged (VStr "strict")) in
  (ra !! "validationAction" = Some (VStr "error")
   ∧ ra !! "isChanged" = Some (VBool false)
   ∧ rl !! "validationLevel" = Some (VStr "strict")
   ∧ rl !! "isChanged" = Some (VBool false))
  ∧ ¬ (ra !! "isChanged" = Some (VBool true))
  ∧ ¬ (rl !! "isChanged" = Some (VBool true)).
Proof.
  split; [|split].
  - repeat split; vm_compute; reflexivity.
  - intros Hdirty. vm_compute in Hdirty. discriminate.
  - intros Hdirty. vm_compute in Hdirty. discriminate.
Qed.

(** Text of the fragment: JSON with its quoted keys, and the same document
    as one writes it in the editor.  A literal left open is none. *)
Example spec_json_text :
  let quotes := String (ascii_of_nat 34) EmptyString in
  let d := VObj [("age", VObj [("$gt", VNum 18)])] in
  Reference.denotes
    ("{" +:+ quotes +:+ "age" +:+ quotes +:+ ": {" +:+ quotes +:+ "$gt"
     +:+ quotes +:+ ": 18}}") d
  ∧ Reference.denotes "{ age: { $gt: 18 } }" d
  ∧ ¬ ∃ v, Reference.denotes "{ age: { $gt: 18 }" v.
Proof.
  split; [|split]; try (vm_compute; reflexivity).
  intros [v Hv]. vm_compute in Hv. discriminate.
Qed.





(** C4, on the failing input: in the earlier revision the plain lookup
    finds a document and the lookup under [$nor] fails; the thunk returns
    with nothing dispatched after the loading action, no error is
    surfaced, and the store keeps the samples of the previous fetch while
    it shows the fetch as loading. *)
Lemma negation_failure_is_dropped :
  let state :=
    Fixture.store (Some Fixture.negation_fails) Fixture.edited Fixture.shown in
  let run :=
    SampleDocumentsEarly.fetchSampleDocuments
      (VStr "{ name: { $exists: true } }") state in
  let query := VObj [("name", VObj [("$exists", VBool true)])] in
  let final :=
    after SampleDocumentsEarly.reducer (sampleDocuments state)
      (dispatched run) in
  run
  = ([ Dispatched SampleDocumentsEarly.loadingSampleDocuments;
       Called "find" [VStr "db.people"; query; SampleDocumentsEarly.OPTIONS];
       Called "find" [ VStr "db.people"; VObj [("$nor", VArr [query])];
                       SampleDocumentsEarly.OPTIONS ] ],
     Return tt)
  ∧ final !! "matching" = Some Fixture.ada
  ∧ final !! "notmatching" = Some Fixture.bob
  ∧ final !! "isLoading" = Some (VBool true).
Proof.
  repeat split; vm_compute; reflexivity.
Qed.

(** C5, on the failing input: in the earlier revision a failing [find]
    leaves the loading action as the only one dispatched, so [isLoading]
    stays true; with no data service connected the same holds in both
    revisions. *)
Lemma failed_fetch_stays_loading :
  let text := VStr "{ name: { $exists: true } }" in
  let failing :=
    Fixture.store (Some Fixture.find_fails) Fixture.edited
      SampleDocuments.INITIAL_STATE in
  let offline :=
    Fixture.store None Fixture.edited SampleDocuments.INITIAL_STATE in
  let early := SampleDocumentsEarly.fetchSampleDocuments text in
  let later := SampleDocuments.fetchSampleDocuments Fixture.surfaced text in
  (dispatched (early failing) = [SampleDocumentsEarly.loadingSampleDocuments]
   ∧ (early failing).2 = Return tt
   ∧ after SampleDocumentsEarly.reducer (sampleDocuments failing)
       (dispatched (early failing)) !! "isLoading" = Some (VBool true))
  ∧ (dispatched (early offline) = [SampleDocumentsEarly.loadingSampleDocuments]
     ∧ dispatched (later offline) = [SampleDocuments.loadingSampleDocuments]
     ∧ after SampleDocuments.reducer (sampleDocuments offline)
         (dispatched (later offline)) !! "isLoading" = Some (VBool true)).
Proof.
  split; repeat split; vm_compute; reflexivity.
Qed.

(** C6, on the failing input: the listing fails and its callback receives
    the error alone; reading [data[0]] throws a TypeError out of the
    callback, in both revisions, and nothing is dispatched.  A listing
    that succeeds with no collection throws on [.options]. *)
Lemma failed_listing_throws :
  let failing :=
    Fixture.store (Some Fixture.listing_fails) Validation.INITIAL_STATE
      SampleDocuments.INITIAL_STATE in
  let empty :=
    Fixture.store (Some Fixture.idle) Validation.INITIAL_STATE
      SampleDocuments.INITIAL_STATE in
  let listing :=
    Called "listCollections" [VStr "db"; VObj [("name", VStr "people")]] in
  Validation.fetchValidation Fixture.people failing
  = ([listing], Throw (TypeError "Cannot read property '0' of undefined"))
  ∧ ValidationEarly.fetchValidation Fixture.people failing
    = ([listing], Throw (TypeError "Cannot read property '0' of undefined"))
  ∧ Validation.fetchValidation Fixture.people empty
    = ([listing],
       Throw (TypeError "Cannot read property 'options' of undefined")).
Proof.
  repeat split; vm_compute; reflexivity.
Qed.

(** C8, on the failing input: with the action set to [error] and the
    level to [strict], the command sent on save carries the collection,
    the checked validator and the level ['moderate'], and no
    [validationAction]. *)
Lemma save_sends_moderate_level :
  let state :=
    Fixture.store (Some Fixture.idle) Fixture.edited
      SampleDocuments.INITIAL_STATE in
  let text := VStr "{ name: { $exists: true } }" in
  validation state !! "validationAction" = Some (VStr "error")
  ∧ validation state !! "validationLevel" = Some (VStr "strict")
  ∧ (Validation.saveValidation text state).1
    = [ Called "command"
          [ VStr "db";
            VObj [ ("collMod", VStr "people");
                   ("validator", VObj [("name", VObj [("$exists", VBool true)])]);
                   ("validationLevel", VStr "moderate") ] ];
        Dispatched (Validation.validatorSaved text) ].
Proof.
  repeat split; vm_compute; reflexivity.
Qed.

End Examples.

(** * Further properties of the validation reducer *)

Section ReducerInvariants.
Context `{Engine}.
Implicit Types s p : gmap string value.

(** The reducer runs the transition registered for the type, or none. *)
Lemma reducer_cases s (a : action) :
  (type a = Validation.VALIDATOR_CHANGED
   ∧ Validation.reducer (Some s) a = Validation.changeValidator s a)
  ∨ (type a = Validation.VALIDATOR_CANCELED
     ∧ Validation.reducer (Some s) a = Validation.cancelValidator s a)
  ∨ (type a = Validation.VALIDATOR_CREATED
     ∧ Validation.reducer (Some s) a = Validation.createValidator s a)
  ∨ (type a = Validation.VALIDATOR_SAVED
     ∧ Validation.reducer (Some s) a = Validation.updateValidator s a)
  ∨ (type a = Validation.VALIDATION_ACTION_CHANGED
     ∧ Validation.reducer (Some s) a = Validation.changeValidationAction s a)
  ∨ (type a = Validation.VALIDATION_LEVEL_CHANGED
     ∧ Validation.reducer (Some s) a = Validation.changeValidationLevel s a)
  ∨ (Validation.MAPPINGS !! type a = None
     ∧ Validation.reducer (Some s) a = s).
Proof.
  unfold Validation.reducer. cbn [default].
  destruct (decide (type a = Validation.VALIDATOR_CHANGED)) as [->|?];
    [left; by split|right].
  destruct (decide (type a = Validation.VALIDATOR_CANCELED)) as [->|?];
    [left; by split|right].
  destruct (decide (type a = Validation.VALIDATOR_CREATED)) as [->|?];
    [left; by split|right].
  destruct (decide (type a = Validation.VALIDATOR_SAVED)) as [->|?];
    [left; by split|right].
  destruct (decide (type a = Validation.VALIDATION_ACTION_CHANGED)) as [->|?];
    [left; by split|right].
  destruct (decide (type a = Validation.VALIDATION_LEVEL_CHANGED)) as [->|?];
    [left; by split|right].
  assert (Validation.MAPPINGS !! type a = None) as Hnone.
  { apply MAPPINGS_keys. rewrite !not_elem_of_cons.
    repeat split; try assumption. apply not_elem_of_nil. }
  by rewrite Hnone.
Qed.

(** One step keeps the snapshot unless it is a fetch. *)
Lemma step_keeps_snapshot s (a : action) :
  type a ≠ Validation.VALIDATOR_CREATED →
  Validation.reducer (Some s) a !! "prevValidator" = s !! "prevValidator".
Proof.
  intros Hedit.
  destruct (reducer_cases s a)
    as [[_ ->]|[[_ ->]|[[Hc _]|[[_ ->]|[[_ ->]|[[_ ->]|[_ ->]]]]]]];
    try done.
  - unfold Validation.changeValidator. through_inserts.
  - unfold Validation.cancelValidator. through_inserts.
  - unfold Validation.updateValidator. cbn zeta. through_inserts.
  - unfold Validation.changeValidationAction. through_inserts.
  - unfold Validation.changeValidationLevel. through_inserts.
Qed.

Lemma edits_keep_snapshot s (edits : list action) :
  Forall (λ a, type a ≠ Validation.VALIDATOR_CREATED) edits →
  after Validation.reducer s edits !! "prevValidator" = s !! "prevValidator".
Proof.
  intros Hedits. revert s.
  induction Hedits as [|a edits Ha _ IH]; intros s; [reflexivity|].
  cbn [after foldl]. unfold after in IH. rewrite IH.
  by apply step_keeps_snapshot.
Qed.

(** Whenever the validation reducer returns a state object, it is the
    state [Validation.reducer] computes. *)
Lemma state_outcome s (a : action) (s' : gmap string value) :
  Inherited.reducer Validation.MAPPINGS Validation.INITIAL_STATE (Some s) a
  = Return (Inherited.State s') →
  s' = Validation.reducer (Some s) a.
Proof.
  unfold Inherited.reducer, Validation.reducer. cbn [default].
  destruct (Validation.MAPPINGS !! type a) as [fn|]; [congruence|].
  destruct (Inherited.Object_prototype (type a) ) as [[]|]; cbn;
    congruence.
Qed.

Lemma states_outcome s (actions : list action) (s' : gmap string value) :
  Inherited.after Validation.MAPPINGS Validation.INITIAL_STATE s actions
  = Some s' →
  s' = after Validation.reducer s actions.
Proof.
  revert s. induction actions as [|a actions IH]; intros s; cbn [Inherited.after].
  - by intros [= <-].
  - destruct (Inherited.reducer _ _ (Some s) a) as [[middle|]|] eqn:Hstep;
      try discriminate.
    intros Hrest. apply state_outcome in Hstep as ->.
    by apply IH in Hrest.
Qed.

(** X1: after a fetch has stored a validator, cancelling brings that text
    back whatever was typed, changed or saved in between.  Take any list
    of actions, none of them VALIDATOR_CREATED, over which the reducer
    returns a state object at every step (an action typed [toString]
    would make it return a string): the VALIDATOR_CANCELED action that
    follows returns a state whose [validator] is the one the
    VALIDATOR_CREATED action stored, with [isChanged = false] and
    [syntaxError = null]. *)
Theorem cancel_restores_fetched_text s p (edits : list action)
    (middle : gmap string value) :
  let reducer :=
    Inherited.reducer Validation.MAPPINGS Validation.INITIAL_STATE in
  let created :=
    Validation.createValidator s (Action Validation.VALIDATOR_CREATED p) in
  Forall (λ a, type a ≠ Validation.VALIDATOR_CREATED) edits →
  Inherited.after Validation.MAPPINGS Validation.INITIAL_STATE created edits
  = Some middle →
  reducer (Some s) (Action Validation.VALIDATOR_CREATED p)
  = Return (Inherited.State created)
  ∧ ∃ final,
      reducer (Some middle) Validation.validatorCanceled
      = Return (Inherited.State final)
      ∧ final !! "validator" = created !! "validator"
      ∧ is_Some (created !! "validator")
      ∧ final !! "isChanged" = Some (VBool false)
      ∧ final !! "syntaxError" = Some VNull.
Proof.
  intros reducer created Hedits Hmiddle.
  split; [reflexivity|].
  apply states_outcome in Hmiddle as ->.
  assert (created !! "prevValidator" = created !! "validator"
          ∧ is_Some (created !! "validator")) as [Hsnap Hsome].
  { subst created. unfold Validation.createValidator. cbn zeta.
    split; [through_inserts|]. rewrite lookup_insert_ne by discriminate.
    rewrite lookup_insert_eq. by eexists. }
  pose proof (edits_keep_snapshot created edits Hedits) as Hkept.
  exists (Validation.cancelValidator (after Validation.reducer created edits)
            Validation.validatorCanceled).
  split; [reflexivity|].
  unfold Validation.cancelValidator, prop.
  rewrite Hkept, Hsnap. destruct Hsome as [text Htext]. rewrite Htext.
  cbn [default]. repeat split; through_inserts. by eexists.
Qed.

(** One step changes the action and the level only through their own
    transitions. *)
Lemma step_keeps_action_and_level s (a : action) :
  type a ≠ Validation.VALIDATION_ACTION_CHANGED →
  type a ≠ Validation.VALIDATION_LEVEL_CHANGED →
  Validation.reducer (Some s) a !! "validationAction" = s !! "validationAction"
  ∧ Validation.reducer (Some s) a !! "validationLevel" = s !! "validationLevel".
Proof.
  intros Haction Hlevel.
  destruct (reducer_cases s a)
    as [[_ ->]|[[_ ->]|[[_ ->]|[[_ ->]|[[? _]|[[? _]|[_ ->]]]]]]];
    try done.
  - unfold Validation.changeValidator. split; through_inserts.
  - unfold Validation.cancelValidator. split; through_inserts.
  - unfold Validation.createValidator. cbn zeta. split; through_inserts.
  - unfold Validation.updateValidator. cbn zeta. split; through_inserts.
Qed.

(** X2: typing, cancelling, saving and fetching never touch the action
    and the level.  Take any list of actions, none of them
    VALIDATION_ACTION_CHANGED or VALIDATION_LEVEL_CHANGED, over which the
    reducer returns a state object at every step: the last state has the
    [validationAction] and the [validationLevel] of the first. *)
Theorem action_and_level_are_kept s (actions : list action)
    (final : gmap string value) :
  Forall (λ a, type a ≠ Validation.VALIDATION_ACTION_CHANGED
               ∧ type a ≠ Validation.VALIDATION_LEVEL_CHANGED) actions →
  Inherited.after Validation.MAPPINGS Validation.INITIAL_STATE s actions
  = Some final →
  final !! "validationAction" = s !! "validationAction"
  ∧ final !! "validationLevel" = s !! "validationLevel".
Proof.
  intros Hactions Hfinal. apply states_outcome in Hfinal as ->.
  revert s.
  induction Hactions as [|a actions [Ha Hl] _ IH]; intros s; [by split|].
  cbn [after foldl]. unfold after in IH.
  destruct (IH (Validation.reducer (Some s) a)) as [-> ->].
  by apply step_keeps_action_and_level.
Qed.

(** One step keeps "no unsaved change, no syntax error". *)
Lemma step_keeps_clean_without_error s (a : action) :
  (s !! "isChanged" = Some (VBool false) → s !! "syntaxError" = Some VNull) →
  Validation.reducer (Some s) a !! "isChanged" = Some (VBool false) →
  Validation.reducer (Some s) a !! "syntaxError" = Some VNull.
Proof.
  intros Hinv.
  destruct (reducer_cases s a)
    as [[_ ->]|[[_ ->]|[[_ ->]|[[_ ->]|[[_ ->]|[[_ ->]|[_ ->]]]]]]];
    try assumption.
  - unfold Validation.changeValidator.
    rewrite lookup_insert_ne, lookup_insert_ne, lookup_insert_eq
      by discriminate.
    discriminate.
  - intros _. unfold Validation.cancelValidator. through_inserts.
  - intros _. unfold Validation.createValidator. cbn zeta. through_inserts.
  - intros _. unfold Validation.updateValidator. cbn zeta. through_inserts.
  - unfold Validation.changeValidationAction.
    by rewrite !lookup_insert_ne by discriminate.
  - unfold Validation.changeValidationLevel.
    by rewrite !lookup_insert_ne by discriminate.
Qed.

Lemma steps_keep_clean_without_error s (actions : list action) :
  (s !! "isChanged" = Some (VBool false) → s !! "syntaxError" = Some VNull) →
  after Validation.reducer s actions !! "isChanged" = Some (VBool false) →
  after Validation.reducer s actions !! "syntaxError" = Some VNull.
Proof.
  revert s. induction actions as [|a actions IH]; intros s Hs; [exact Hs|].
  cbn [after foldl]. apply IH. by apply step_keeps_clean_without_error.
Qed.

(** X3: whatever is dispatched from the initial state, a state whose
    [isChanged] is false has [syntaxError = null]: a syntax error is only
    ever shown together with an unsaved change. *)
Theorem clean_state_has_no_syntax_error (actions : list action) :
  let s := after Validation.reducer Validation.INITIAL_STATE actions in
  s !! "isChanged" = Some (VBool false) → s !! "syntaxError" = Some VNull.
Proof.
  intros s. subst s. apply steps_keep_clean_without_error.
  intros _. reflexivity.
Qed.

End ReducerInvariants.

(** * Further properties of the checker *)

Section CheckerEdges.
Context `{Engine}.

(** X4: when the sandbox throws on a text, both revisions of
    [checkValidator] hand the text back unchanged, with the thrown error
    as the syntax error; the later reducer then stores the text as typed
    and the error, and so does the earlier one. *)
Theorem failed_check_keeps_the_text s (input error : value) :
  Validation.executeJavascript input Validation.getQuerySandbox = Throw error →
  Validation.checkValidator input
  = {| Validation.syntaxError := error; Validation.validator := input |}
  ∧ ValidationEarly.checkValidator input
    = {| Validation.syntaxError := error; Validation.validator := input |}
  ∧ Validation.reducer (Some s) (Validation.validatorChanged input)
    = <["syntaxError" := error]>
        (<["validator" := input]> (<["isChanged" := VBool true]> s))
  ∧ ValidationEarly.reducer (Some s) (ValidationEarly.validatorChanged input)
    = <["syntaxError" := error]>
        (<["validator" := input]> (<["isChanged" := VBool true]> s)).
Proof.
  intros Hthrown.
  assert (Validation.checkValidator input
          = {| Validation.syntaxError := error;
               Validation.validator := input |}) as Hlater
    by (unfold Validation.checkValidator; by rewrite Hthrown).
  assert (ValidationEarly.checkValidator input
          = {| Validation.syntaxError := error;
               Validation.validator := input |}) as Hearly
    by (unfold ValidationEarly.checkValidator; by rewrite Hthrown).
  repeat split; try assumption.
  - change (Validation.reducer (Some s) (Validation.validatorChanged input))
      with (Validation.changeValidator s (Validation.validatorChanged input)).
    unfold Validation.changeValidator, Validation.validatorChanged, prop.
    cbn [payload]. rewrite lookup_singleton_eq. cbn [from_option id].
    by rewrite Hlater.
  - change (ValidationEarly.reducer (Some s)
              (ValidationEarly.validatorChanged input))
      with (ValidationEarly.changeValidator s
              (ValidationEarly.validatorChanged input)).
    unfold ValidationEarly.changeValidator, ValidationEarly.validatorChanged,
      prop.
    cbn [payload]. rewrite lookup_singleton_eq. cbn [from_option id].
    by rewrite Hearly.
Qed.

(** X5: when a text evaluates, the later revision stores the text as
    typed, whereas the earlier revision replaces it by the EJSON text of
    the evaluated value and reports the fixed message of the language
    model, or no error, as the model rejects or accepts that text. *)
Theorem evaluated_text_is_stored s (input parsed : value) :
  Validation.executeJavascript input Validation.getQuerySandbox
  = Return parsed →
  let later :=
    Validation.reducer (Some s) (Validation.validatorChanged input) in
  let early :=
    ValidationEarly.reducer (Some s) (ValidationEarly.validatorChanged input) in
  let text := EJSON_stringify parsed None in
  (later !! "validator" = Some input
   ∧ later !! "syntaxError" = Some VNull
   ∧ later !! "isChanged" = Some (VBool true))
  ∧ (early !! "validator" = Some text
     ∧ early !! "isChanged" = Some (VBool true)
     ∧ early !! "syntaxError"
       = Some (if accepts text then VNull
               else VStr "MongoDB language model does not accept the input")).
Proof.
  intros Hparsed later early text. subst later early.
  change (Validation.reducer (Some s) (Validation.validatorChanged input))
    with (Validation.changeValidator s (Validation.validatorChanged input)).
  change (ValidationEarly.reducer (Some s)
            (ValidationEarly.validatorChanged input))
    with (ValidationEarly.changeValidator s
            (ValidationEarly.validatorChanged input)).
  unfold Validation.changeValidator, ValidationEarly.changeValidator,
    Validation.validatorChanged, ValidationEarly.validatorChanged, prop,
    Validation.checkValidator, ValidationEarly.checkValidator.
  cbn [payload]. rewrite lookup_singleton_eq. cbn [from_option id].
  rewrite Hparsed. cbn zeta.
  cbn [Validation.syntaxError Validation.validator].
  repeat split; through_inserts.
Qed.

End CheckerEdges.

(** * Further properties of the thunks *)

Section ThunkRuns.
Context `{Engine}.
Variable syntaxErrorOccurred : value -> action.

(** The defaults the fetch falls back to. *)
Lemma initial_defaults :
  prop Validation.INITIAL_STATE "validator" = VStr ""
  ∧ prop Validation.INITIAL_STATE "validationAction" = VStr "warning"
  ∧ prop Validation.INITIAL_STATE "validationLevel" = VStr "moderate".
Proof. repeat split; vm_compute; reflexivity. Qed.

(** [defaults] on the three options: a property that reads as
    [undefined] takes the default. *)
Lemma defaults_of_options (v a l dv da dl : value) :
  let fallback x d := match x with VUndefined => d | _ => x end in
  Validation.defaults
    [("validator", v); ("validationAction", a); ("validationLevel", l)]
    [("validator", dv); ("validationAction", da); ("validationLevel", dl)]
  = [ ("validator", fallback v dv);
      ("validationAction", fallback a da);
      ("validationLevel", fallback l dl) ].
Proof. destruct v, a, l; reflexivity. Qed.

(** X6: when the listing succeeds and the collection has options,
    [fetchValidation] dispatches the validator, the action and the level
    of the options, each falling back on its own to the initial default
    (the empty validator, [warning], [moderate]) when the options do not
    define it. *)
Theorem fetched_options_fall_back (target : Namespace) (state : RootState)
    (service : DataService) (error : value) (row opts : list (string * value))
    (rest : list value) :
  dataService state = Some service →
  listCollections service (database target)
    (VObj [("name", VStr (collection target))])
  = (error, VArr (VObj row :: rest)) →
  truthy error = false →
  assoc "options" row = Some (VObj opts) →
  let option k fallback :=
    match assoc k opts with
    | None | Some VUndefined => fallback
    | Some v => v
    end in
  let run := Validation.fetchValidation target state in
  dispatched run
  = [ Validation.validatorCreated
        (EJSON_stringify (option "validator" (VStr "")) (Some 2%nat));
      Validation.validationActionChanged
        (option "validationAction" (VStr "warning"));
      Validation.validationLevelChanged
        (option "validationLevel" (VStr "moderate")) ]
  ∧ run.2 = Return tt.
Proof.
  intros Hservice Hreply Hok Hoptions option run. subst run option.
  unfold Validation.fetchValidation. rewrite Hservice.
  rewrite dispatched_call, result_call, Hreply.
  change (get_index (VArr (VObj row :: rest)) 0) with (Return (VObj row)).
  rewrite lift_return.
  replace (get (VObj row) "options") with (Return (VObj opts))
    by (cbn [get]; by rewrite Hoptions).
  rewrite lift_return, Hok.
  change (negb false && truthy (VObj opts)) with true. cbv iota.
  unfold get. rewrite !lift_return.
  destruct initial_defaults as (-> & -> & ->).
  rewrite defaults_of_options.
  destruct (assoc "validator" opts) as [[]|],
           (assoc "validationAction" opts) as [[]|],
           (assoc "validationLevel" opts) as [[]|];
    split; reflexivity.
Qed.

(** X7: when the listing hands over a collection but reports an error, or
    the collection has no options, [fetchValidation] dispatches the three
    initial defaults and nothing else: the error is not kept anywhere. *)
Theorem fetch_falls_back_to_defaults (target : Namespace) (state : RootState)
    (service : DataService) (error data row options : value) :
  dataService state = Some service →
  listCollections service (database target)
    (VObj [("name", VStr (collection target))]) = (error, data) →
  get_index data 0 = Return row →
  get row "options" = Return options →
  truthy error = true ∨ truthy options = false →
  let run := Validation.fetchValidation target state in
  dispatched run
  = [ Validation.validatorCreated (EJSON_stringify (VStr "") (Some 2%nat));
      Validation.validationActionChanged (VStr "warning");
      Validation.validationLevelChanged (VStr "moderate") ]
  ∧ run.2 = Return tt.
Proof.
  intros Hservice Hreply Hrow Hoptions Hfailed run. subst run.
  unfold Validation.fetchValidation. rewrite Hservice.
  rewrite dispatched_call, result_call, Hreply, Hrow, lift_return,
    Hoptions, lift_return.
  destruct initial_defaults as (-> & -> & ->).
  assert (negb (truthy error) && truthy options = false) as ->.
  { destruct Hfailed as [->| ->]; [reflexivity|].
    by destruct (truthy error). }
  split; reflexivity.
Qed.

(** X8: whenever [fetchValidation] reaches the data service and its
    callback returns, the state the reducer reaches over what was
    dispatched has no unsaved change and no syntax error, and its snapshot
    is its validator. *)
Theorem fetched_state_is_clean (target : Namespace) (state : RootState)
    (service : DataService) (s : gmap string value) :
  dataService state = Some service →
  let run := Validation.fetchValidation target state in
  run.2 = Return tt →
  let final := after Validation.reducer s (dispatched run) in
  final !! "isChanged" = Some (VBool false)
  ∧ final !! "syntaxError" = Some VNull
  ∧ final !! "prevValidator" = final !! "validator"
  ∧ is_Some (final !! "validator").
Proof.
  intros Hservice run Hreturned final.
  assert (∃ v a l,
            dispatched run
            = [ Validation.validatorCreated v;
                Validation.validationActionChanged a;
                Validation.validationLevelChanged l ]) as (v & a & l & Hlog).
  { subst run. revert Hreturned.
    unfold Validation.fetchValidation. rewrite Hservice.
    rewrite dispatched_call, result_call.
    destruct (listCollections service _ _) as [error data].
    destruct (get_index data 0) as [row|thrown]; [|discriminate].
    rewrite lift_return.
    destruct (get row "options") as [options|thrown]; [|discriminate].
    rewrite lift_return.
    destruct (negb (truthy error) && truthy options).
    - destruct (get options "validator") as [x|?]; [|discriminate].
      rewrite lift_return.
      destruct (get options "validationAction") as [y|?]; [|discriminate].
      rewrite lift_return.
      destruct (get options "validationLevel") as [z|?]; [|discriminate].
      rewrite lift_return. intros _. by eexists _, _, _.
    - intros _. by eexists _, _, _. }
  subst final. rewrite Hlog. unfold after. cbn [foldl].
  change (Validation.reducer (Some ?x) (Validation.validationLevelChanged l))
    with (Validation.changeValidationLevel x
            (Validation.validationLevelChanged l)).
  change (Validation.reducer (Some ?x) (Validation.validationActionChanged a))
    with (Validation.changeValidationAction x
            (Validation.validationActionChanged a)).
  change (Validation.reducer (Some s) (Validation.validatorCreated v))
    with (Validation.createValidator s (Validation.validatorCreated v)).
  unfold Validation.changeValidationLevel, Validation.changeValidationAction,
    Validation.createValidator.
  cbn zeta. repeat split; through_inserts; by eexists.
Qed.

(** X9: with a data service connected, [saveValidation] dispatches
    VALIDATOR_SAVED with the text it was given whatever the command
    replies, an error included: the state that follows has that text as
    its validator, no unsaved change and no syntax error.  With no data
    service it does nothing. *)
Theorem save_always_reports_saved (input : value) (state : RootState)
    (s : gmap string value) :
  let run := Validation.saveValidation input state in
  let final := after Validation.reducer s (dispatched run) in
  match dataService state with
  | Some service =>
      dispatched run = [Validation.validatorSaved input]
      ∧ run.2 = Return tt
      ∧ final !! "validator" = Some input
      ∧ final !! "isChanged" = Some (VBool false)
      ∧ final !! "syntaxError" = Some VNull
  | None => run = ([], Return tt) ∧ final = s
  end.
Proof.
  intros run final. subst final run. unfold Validation.saveValidation.
  destruct (dataService state) as [service|]; [|by split].
  rewrite dispatched_call, result_call.
  destruct (command service _ _) as [error data].
  change (dispatched (dispatch (Validation.validatorSaved input)))
    with [Validation.validatorSaved input].
  unfold after. cbn [foldl].
  change (Validation.reducer (Some s) (Validation.validatorSaved input))
    with (Validation.updateValidator s (Validation.validatorSaved input)).
  unfold Validation.updateValidator, Validation.validatorSaved, prop.
  cbn [payload]. rewrite lookup_singleton_eq. cbn [from_option id].
  repeat split; through_inserts.
Qed.

(** The events of a bind that starts with a dispatch or a call. *)
Lemma events_dispatch {A : Type} (a : action) (k : unit -> io A) :
  (dispatch a ≫= k).1 = Dispatched a :: (k tt).1.
Proof. cbn. by destruct (k tt). Qed.

Lemma events_call {A : Type} (method : string) (args : list value)
    (k : unit -> io A) :
  (call method args ≫= k).1 = Called method args :: (k tt).1.
Proof. cbn. by destruct (k tt). Qed.

(** [docs[0] ? docs[0] : null] on an array. *)
Lemma first_or_null_of_array (docs : list value) :
  first_or_null (VArr docs)
  = Return (match docs with
            | d :: _ => if truthy d then d else VNull
            | [] => VNull
            end).
Proof. destruct docs as [|d rest]; [reflexivity|]. cbn. by destruct (truthy d). Qed.

(** The run of the later [fetchSampleDocuments] when the count and both
    lookups succeed. *)
Lemma later_fetch_run (input : value) (state : RootState)
    (service : DataService) (counted : Z) (found others : list value) :
  let query :=
    Validation.validator
      (Validation.checkValidator
         (Validation.validator (Validation.checkValidator input))) in
  let capped stages :=
    VArr (if (100000 <? counted)%Z
          then VObj [("$limit", VNum 100000)] :: stages else stages) in
  let matching :=
    capped [VObj [("$match", query)]; VObj [("$limit", VNum 1)]] in
  let negated :=
    capped [ VObj [("$match", VObj [("$nor", VArr [query])])];
             VObj [("$limit", VNum 1)] ] in
  let options := VObj [("allowDiskUse", VBool true)] in
  let counting := count service (ns (namespace state)) query (VObj []) in
  let lookup stages := aggregate service (ns (namespace state)) stages options in
  let first docs :=
    match docs with
    | d :: _ => if truthy d then d else VNull
    | [] => VNull
    end in
  dataService state = Some service →
  truthy counting.1 = false ∧ counting.2 = VNum counted →
  truthy (lookup matching).1 = false
  ∧ truthy (toArray (lookup matching).2).1 = false
  ∧ (toArray (lookup matching).2).2 = VArr found →
  truthy (lookup negated).1 = false
  ∧ truthy (toArray (lookup negated).2).1 = false
  ∧ (toArray (lookup negated).2).2 = VArr others →
  SampleDocuments.fetchSampleDocuments syntaxErrorOccurred input state
  = ([ Dispatched SampleDocuments.loadingSampleDocuments;
       Called "count" [VStr (ns (namespace state)); query; VObj []];
       Called "aggregate" [VStr (ns (namespace state)); matching; options];
       Called "toArray" [];
       Called "close" [];
       Called "aggregate" [VStr (ns (namespace state)); negated; options];
       Called "toArray" [];
       Called "close" [];
       Dispatched (SampleDocuments.sampleDocumentsFetched
                     [ ("matching", first found);
                       ("notmatching", first others) ]) ],
     Return tt).
Proof.
  intros query capped matching negated options counting lookup first
    Hservice [Hcount Hcounted] (Hagg1 & Herr1 & Harr1) (Hagg2 & Herr2 & Harr2).
  subst lookup counting. cbn beta in *.
  apply injective_projections.
  all: unfold SampleDocuments.fetchSampleDocuments; rewrite Hservice;
    fold query; clearbody query;
    rewrite ?events_dispatch, ?result_dispatch, ?events_call, ?result_call;
    destruct (count service _ query _) as [countError number];
    cbn [fst snd] in Hcount, Hcounted; subst number; rewrite Hcount;
    unfold SampleDocuments.getSampleDocuments;
    cbn [SampleDocuments.docsCount SampleDocuments.over_limit];
    change SampleDocuments.MAX_LIMIT with 100000%Z;
    subst matching negated capped options; cbn beta in *;
    destruct (100000 <? counted)%Z eqn:Hover;
    cbn [SampleDocuments.docsCount SampleDocuments.pipeline
         SampleDocuments.docsNamespace SampleDocuments.docsDataService].
  all: rewrite ?events_call, ?result_call.
  all: match goal with
       | |- context [aggregate ?s ?n ?p ?o] =>
           destruct (aggregate s n p o) as [e1 c1]
       end;
       cbn [fst snd] in Hagg1, Herr1, Harr1; rewrite Hagg1;
       rewrite ?events_call, ?result_call;
       destruct (toArray c1) as [t1 d1];
       cbn [fst snd] in Herr1, Harr1; subst d1; rewrite Herr1;
       rewrite ?events_call, ?result_call;
       cbn [SampleDocuments.docsCount SampleDocuments.over_limit];
       change SampleDocuments.MAX_LIMIT with 100000%Z; rewrite Hover;
       cbn [SampleDocuments.docsCount SampleDocuments.pipeline
            SampleDocuments.docsNamespace SampleDocuments.docsDataService];
       rewrite ?events_call, ?result_call.
  all: match goal with
       | |- context [aggregate ?s ?n ?p ?o] =>
           destruct (aggregate s n p o) as [e2 c2]
       end;
       cbn [fst snd] in Hagg2, Herr2, Harr2; rewrite Hagg2;
       rewrite ?events_call, ?result_call;
       destruct (toArray c2) as [t2 d2];
       cbn [fst snd] in Herr2, Harr2; subst d2; rewrite Herr2;
       rewrite ?events_call, ?result_call;
       rewrite !first_or_null_of_array, !lift_return; reflexivity.
Qed.

(** What a SAMPLE_DOCUMENTS_FETCHED action carries. *)
Lemma fetched_payload (m n : value) :
  prop (payload (SampleDocuments.sampleDocumentsFetched
                   [("matching", m); ("notmatching", n)])) "matching" = m
  ∧ prop (payload (SampleDocuments.sampleDocumentsFetched
                     [("matching", m); ("notmatching", n)])) "notmatching" = n.
Proof. split; reflexivity. Qed.

(** X10: when the count and both lookups succeed, the later
    [fetchSampleDocuments] dispatches the loading action and then one
    SAMPLE_DOCUMENTS_FETCHED that carries, for each lookup, its first
    document, or [null] when it found none; the store then shows these two
    and is no longer loading. *)
Theorem fetch_reports_first_documents (input : value) (state : RootState)
    (service : DataService) (counted : Z) (found others : list value)
    (s : gmap string value) :
  let query :=
    Validation.validator
      (Validation.checkValidator
         (Validation.validator (Validation.checkValidator input))) in
  let capped stages :=
    VArr (if (100000 <? counted)%Z
          then VObj [("$limit", VNum 100000)] :: stages else stages) in
  let matching :=
    capped [VObj [("$match", query)]; VObj [("$limit", VNum 1)]] in
  let negated :=
    capped [ VObj [("$match", VObj [("$nor", VArr [query])])];
             VObj [("$limit", VNum 1)] ] in
  let options := VObj [("allowDiskUse", VBool true)] in
  let counting := count service (ns (namespace state)) query (VObj []) in
  let lookup stages := aggregate service (ns (namespace state)) stages options in
  let first docs :=
    match docs with
    | d :: _ => if truthy d then d else VNull
    | [] => VNull
    end in
  let run :=
    SampleDocuments.fetchSampleDocuments syntaxErrorOccurred input state in
  let final := after SampleDocuments.reducer s (dispatched run) in
  dataService state = Some service →
  truthy counting.1 = false ∧ counting.2 = VNum counted →
  truthy (lookup matching).1 = false
  ∧ truthy (toArray (lookup matching).2).1 = false
  ∧ (toArray (lookup matching).2).2 = VArr found →
  truthy (lookup negated).1 = false
  ∧ truthy (toArray (lookup negated).2).1 = false
  ∧ (toArray (lookup negated).2).2 = VArr others →
  dispatched run
  = [ SampleDocuments.loadingSampleDocuments;
      SampleDocuments.sampleDocumentsFetched
        [("matching", first found); ("notmatching", first others)] ]
  ∧ final !! "matching" = Some (first found)
  ∧ final !! "notmatching" = Some (first others)
  ∧ final !! "isLoading" = Some (VBool false).
Proof.
  intros query capped matching negated options counting lookup first run final
    Hservice Hcount Hfound Hothers.
  pose proof (later_fetch_run input state service counted found others
                Hservice Hcount Hfound Hothers) as Hrun.
  fold run in Hrun. subst final. rewrite Hrun.
  change (dispatched (?events, Return tt))
    with [ SampleDocuments.loadingSampleDocuments;
           SampleDocuments.sampleDocumentsFetched
             [("matching", first found); ("notmatching", first others)] ].
  split; [reflexivity|].
  unfold after. cbn [foldl].
  change (SampleDocuments.reducer (Some ?x)
            (SampleDocuments.sampleDocumentsFetched ?d))
    with (SampleDocuments.refreshSampleDocuments x
            (SampleDocuments.sampleDocumentsFetched d)).
  unfold SampleDocuments.refreshSampleDocuments.
  destruct (fetched_payload (first found) (first others)) as [-> ->].
  repeat split; through_inserts.
Qed.

(** X11: the lookups of the later [fetchSampleDocuments] are capped: when
    the count is above 100000 (and only then; 100000 itself is not), both
    aggregations start with a [$limit] stage of 100000 before the
    [$match]; each ends with [$limit: 1], allows disk use, and has its
    cursor closed before the next call. *)
Theorem lookups_are_capped (input : value) (state : RootState)
    (service : DataService) (counted : Z) (found others : list value) :
  let query :=
    Validation.validator
      (Validation.checkValidator
         (Validation.validator (Validation.checkValidator input))) in
  let capped stages :=
    VArr (if (100000 <? counted)%Z
          then VObj [("$limit", VNum 100000)] :: stages else stages) in
  let matching :=
    capped [VObj [("$match", query)]; VObj [("$limit", VNum 1)]] in
  let negated :=
    capped [ VObj [("$match", VObj [("$nor", VArr [query])])];
             VObj [("$limit", VNum 1)] ] in
  let options := VObj [("allowDiskUse", VBool true)] in
  let counting := count service (ns (namespace state)) query (VObj []) in
  let lookup stages := aggregate service (ns (namespace state)) stages options in
  let run :=
    SampleDocuments.fetchSampleDocuments syntaxErrorOccurred input state in
  dataService state = Some service →
  truthy counting.1 = false ∧ counting.2 = VNum counted →
  truthy (lookup matching).1 = false
  ∧ truthy (toArray (lookup matching).2).1 = false
  ∧ (toArray (lookup matching).2).2 = VArr found →
  truthy (lookup negated).1 = false
  ∧ truthy (toArray (lookup negated).2).1 = false
  ∧ (toArray (lookup negated).2).2 = VArr others →
  omap (λ e, match e with
             | Called method args => Some (method, args)
             | Dispatched _ => None
             end) run.1
  = [ ("count", [VStr (ns (namespace state)); query; VObj []]);
      ("aggregate", [VStr (ns (namespace state)); matching; options]);
      ("toArray", []);
      ("close", []);
      ("aggregate", [VStr (ns (namespace state)); negated; options]);
      ("toArray", []);
      ("close", []) ].
Proof.
  intros query capped matching negated options counting lookup run
    Hservice Hcount Hfound Hothers.
  pose proof (later_fetch_run input state service counted found others
                Hservice Hcount Hfound Hothers) as Hrun.
  fold run in Hrun. by rewrite Hrun.
Qed.

(** X12: when both of its [find] calls succeed, the earlier
    [fetchSampleDocuments] looks the query up and then its negation under
    [$nor], each with [limit: 1] and a time limit of 5000 ms, and
    dispatches the first document of each, or [null] for a lookup that
    found none; the store then shows these two and is no longer
    loading. *)
Theorem early_fetch_reports_first_documents (input : value)
    (state : RootState) (service : DataService) (found others : list value)
    (s : gmap string value) :
  let query :=
    Validation.validator
      (Validation.checkValidator
         (Validation.validator (Validation.checkValidator input))) in
  let negated := VObj [("$nor", VArr [query])] in
  let options := VObj [("maxTimeMS", VNum 5000); ("limit", VNum 1)] in
  let lookup filter := find service (ns (namespace state)) filter options in
  let first docs :=
    match docs with
    | d :: _ => if truthy d then d else VNull
    | [] => VNull
    end in
  let run := SampleDocumentsEarly.fetchSampleDocuments input state in
  let final := after SampleDocumentsEarly.reducer s (dispatched run) in
  dataService state = Some service →
  truthy (lookup query).1 = false ∧ (lookup query).2 = VArr found →
  truthy (lookup negated).1 = false ∧ (lookup negated).2 = VArr others →
  run
  = ([ Dispatched SampleDocumentsEarly.loadingSampleDocuments;
       Called "find" [VStr (ns (namespace state)); query; options];
       Called "find" [VStr (ns (namespace state)); negated; options];
       Dispatched (SampleDocumentsEarly.sampleDocumentsFetched
                     [ ("matching", first found);
                       ("notmatching", first others) ]) ],
     Return tt)
  ∧ final !! "matching" = Some (first found)
  ∧ final !! "notmatching" = Some (first others)
  ∧ final !! "isLoading" = Some (VBool false).
Proof.
  intros query negated options lookup first run final
    Hservice [Hfind1 Hfound] [Hfind2 Hothers].
  assert (run
          = ([ Dispatched SampleDocumentsEarly.loadingSampleDocuments;
               Called "find" [VStr (ns (namespace state)); query; options];
               Called "find" [VStr (ns (namespace state)); negated; options];
               Dispatched (SampleDocumentsEarly.sampleDocumentsFetched
                             [ ("matching", first found);
                               ("notmatching", first others) ]) ],
             Return tt)) as Hrun.
  { subst run lookup. cbn beta in *.
    apply injective_projections.
    all: unfold SampleDocumentsEarly.fetchSampleDocuments; rewrite Hservice;
      fold query; clearbody query;
      change SampleDocumentsEarly.OPTIONS with options;
      rewrite ?events_dispatch, ?result_dispatch, ?events_call, ?result_call;
      destruct (find service _ query options) as [e1 d1];
      cbn [fst snd] in Hfind1, Hfound; subst d1; rewrite Hfind1;
      cbn [negb];
      rewrite ?events_call, ?result_call;
      fold negated;
      destruct (find service _ negated options) as [e2 d2];
      cbn [fst snd] in Hfind2, Hothers; subst d2; rewrite Hfind2;
      cbn [negb];
      rewrite !first_or_null_of_array, !lift_return; reflexivity. }
  split; [exact Hrun|].
  subst final. rewrite Hrun.
  change (dispatched (?events, Return tt))
    with [ SampleDocumentsEarly.loadingSampleDocuments;
           SampleDocumentsEarly.sampleDocumentsFetched
             [("matching", first found); ("notmatching", first others)] ].
  unfold after. cbn [foldl].
  change (SampleDocumentsEarly.reducer (Some ?x)
            (SampleDocumentsEarly.sampleDocumentsFetched ?d))
    with (SampleDocumentsEarly.refreshSampleDocuments x
            (SampleDocumentsEarly.sampleDocumentsFetched d)).
  unfold SampleDocumentsEarly.refreshSampleDocuments.
  destruct (fetched_payload (first found) (first others)) as [Hm Hn].
  change (prop (payload (SampleDocumentsEarly.sampleDocumentsFetched
                           [("matching", first found);
                            ("notmatching", first others)])) "matching")
    with (first found).
  change (prop (payload (SampleDocumentsEarly.sampleDocumentsFetched
                           [("matching", first found);
                            ("notmatching", first others)])) "notmatching")
    with (first others).
  repeat split; through_inserts.
Qed.

End ThunkRuns.

(** * Properties of the components *)

Section Editor.
Import ValidationEditor.

(** The first position of a character is not negative exactly when the
    character occurs. *)
Lemma indexOf_occurs (c : ascii) (key : string) :
  (-1 <? indexOf c key)%Z = true ↔ In c (list_ascii_of_string key).
Proof.
  assert (∀ k, (-1 <= indexOf c k)%Z) as Hbound.
  { induction k as [|c' k IH]; cbn; [lia|].
    destruct (Ascii.eqb c c'); [lia|].
    destruct (indexOf c k); lia. }
  induction key as [|c' key IH]; cbn.
  - split; [discriminate|tauto].
  - destruct (Ascii.eqb c c') eqn:Heq.
    + apply Ascii.eqb_eq in Heq as ->. split; [by left|reflexivity].
    + apply Ascii.eqb_neq in Heq.
      pose proof (Hbound key) as Hkey.
      destruct (indexOf c key) as [|i|i] eqn:Hi.
      * split; [intros _; right; by apply IH|reflexivity].
      * split; [intros _; right; by apply IH|].
        intros _. apply Z.ltb_lt. lia.
      * split; [discriminate|].
        intros [Hc|Hin]; [congruence|].
        apply IH in Hin. apply Z.ltb_lt in Hin. lia.
Qed.

(** X13: [processFields] lists one completion per field, in the order of
    the keys, named after the key; its value is the key itself, or the
    key between double quotes when the key has a dot or a space in it;
    score, meta and version are fixed. *)
Theorem processFields_entries (fields : list (string * value)) :
  let special key :=
    In "."%char (list_ascii_of_string key)
    ∨ In " "%char (list_ascii_of_string key) in
  length (processFields fields) = length fields
  ∧ ∀ i key,
      Object_keys fields !! i = Some key →
      ∃ shown,
        processFields fields !! i
        = Some (VObj [ ("name", VStr key); ("value", VStr shown);
                       ("score", VNum 1); ("meta", VStr "field");
                       ("version", VStr "0.0.0") ])
        ∧ (special key → shown = quoted key)
        ∧ (¬ special key → shown = key).
Proof.
  intros special. unfold processFields, Object_keys.
  split; [by rewrite !length_map|].
  intros i key Hkey. rewrite list_lookup_fmap, Hkey. cbn [fmap option_fmap option_map].
  eexists. split; [reflexivity|].
  destruct (-1 <? indexOf "." key)%Z eqn:Hdot;
    destruct (-1 <? indexOf " " key)%Z eqn:Hspace; cbn [orb];
    subst special; cbn beta.
  1-3: split; [reflexivity|intros Hnot; exfalso; apply Hnot].
  - left. by apply indexOf_occurs.
  - left. by apply indexOf_occurs.
  - right. by apply indexOf_occurs.
  - split; [|reflexivity].
    intros [Hin|Hin]; apply indexOf_occurs in Hin; congruence.
Qed.

End Editor.

Section EditorBoxes.
Context `{Engine}.

(** Reading a property of a truthy value does not throw. *)
Lemma get_of_truthy (v : value) (k : string) :
  truthy v = true → ∃ text, get v k = Return text.
Proof.
  assert (∀ u, u ≠ VUndefined → u ≠ VNull → ∃ text, get u k = Return text)
    as Hreads.
  { induction u as [| | | | | | | |proto IH]; intros Hdefined Hobject;
      try congruence; try (eexists; reflexivity).
    destruct proto; try (eexists; reflexivity); apply IH; discriminate. }
  intros Htruthy. apply Hreads; intros ->; discriminate.
Qed.

(** The state after an edit whose text evaluates, in both revisions. *)
Lemma edit_of_evaluated_text (s : gmap string value) (input parsed : value) :
  Validation.executeJavascript input Validation.getQuerySandbox
  = Return parsed →
  Validation.reducer (Some s) (Validation.validatorChanged input)
  = <["syntaxError" := VNull]>
      (<["validator" := input]> (<["isChanged" := VBool true]> s))
  ∧ ∀ k,
      ValidationEarly.reducer (Some s) (ValidationEarly.validatorChanged input)
        !! k
      = (<["syntaxError" :=
             if accepts (EJSON_stringify parsed None) then VNull
             else VStr "MongoDB language model does not accept the input"]>
           (<["validator" := EJSON_stringify parsed None]>
              (<["isChanged" := VBool true]> s))) !! k.
Proof.
  intros Hparsed.
  change (Validation.reducer (Some s) (Validation.validatorChanged input))
    with (Validation.changeValidator s (Validation.validatorChanged input)).
  change (ValidationEarly.reducer (Some s)
            (ValidationEarly.validatorChanged input))
    with (ValidationEarly.changeValidator s
            (ValidationEarly.validatorChanged input)).
  unfold Validation.changeValidator, ValidationEarly.changeValidator,
    Validation.validatorChanged, ValidationEarly.validatorChanged, prop,
    Validation.checkValidator, ValidationEarly.checkValidator.
  cbn [payload]. rewrite lookup_singleton_eq. cbn [from_option id].
  rewrite Hparsed. cbn zeta.
  cbn [Validation.syntaxError Validation.validator].
  split; reflexivity.
Qed.

(** X14: the editor never throws while rendering and puts at most one
    box below the text: the error box when there is an error, else the
    syntax-error box when the state has a syntax error, else the Update
    and Cancel buttons when the text is changed, else nothing.  Update
    dispatches the saved action with the text of the state, Cancel the
    canceled action. *)
Theorem editor_shows_one_box (props : ValidationEditor.Props) :
  let state := ValidationEditor.validation props in
  let error := ValidationEditor.error props in
  ∃ children,
    ValidationEditor.render props = Return children
    ∧ match children with
      | [] =>
          truthy error = false
          ∧ truthy (prop state "syntaxError") = false
          ∧ truthy (prop state "isChanged") = false
      | [ValidationEditor.ErrorBox text] =>
          truthy error = true ∧ get error "message" = Return text
      | [ValidationEditor.SyntaxErrorBox text] =>
          truthy error = false
          ∧ truthy (prop state "syntaxError") = true
          ∧ get (prop state "syntaxError") "message" = Return text
      | [ValidationEditor.ChangedButtons update cancel] =>
          truthy error = false
          ∧ truthy (prop state "syntaxError") = false
          ∧ truthy (prop state "isChanged") = true
          ∧ update
            = ValidationEditor.validatorSaved props (prop state "validator")
          ∧ cancel = ValidationEditor.validatorCanceled props
      | _ => False
      end.
Proof.
  intros state error.
  unfold ValidationEditor.render, ValidationEditor.renderSyntaxError,
    ValidationEditor.renderError,
    ValidationEditor.renderValidationChangedButtons,
    ValidationEditor.onValidatorSave.
  fold state error.
  destruct (truthy error) eqn:Herror.
  - destruct (get_of_truthy error "message" Herror) as [text Htext].
    rewrite Htext. cbn. eexists. split; [reflexivity|]. by cbn.
  - destruct (truthy (prop state "syntaxError")) eqn:Hsyntax.
    + destruct (get_of_truthy _ "message" Hsyntax) as [text Htext].
      rewrite Htext. cbn. eexists. split; [reflexivity|]. by cbn.
    + destruct (truthy (prop state "isChanged")) eqn:Hchanged;
        cbn; eexists; (split; [reflexivity|]); by cbn.
Qed.

(** X15: with the action creators of the validation module bound to the
    editor and no error, an edit whose text evaluates makes the editor
    show the Update and Cancel buttons, Update carrying the edited text;
    once the action of either button is reduced, the editor shows no
    box. *)
Theorem buttons_show_until_clicked (s : gmap string value)
    (input parsed error : value) :
  let props state :=
    {| ValidationEditor.validation := state;
       ValidationEditor.error := error;
       ValidationEditor.validatorSaved := Validation.validatorSaved;
       ValidationEditor.validatorCanceled := Validation.validatorCanceled |} in
  let edited := Validation.reducer (Some s) (Validation.validatorChanged input) in
  Validation.executeJavascript input Validation.getQuerySandbox
  = Return parsed →
  truthy error = false →
  ValidationEditor.render (props edited)
  = Return [ ValidationEditor.ChangedButtons
               (Validation.validatorSaved input) Validation.validatorCanceled ]
  ∧ ValidationEditor.render
      (props (Validation.reducer (Some edited)
                (Validation.validatorSaved input)))
    = Return []
  ∧ ValidationEditor.render
      (props (Validation.reducer (Some edited) Validation.validatorCanceled))
    = Return [].
Proof.
  intros props edited Hparsed Herror.
  assert (edited
          = <["syntaxError" := VNull]>
              (<["validator" := input]> (<["isChanged" := VBool true]> s)))
    as Hedited.
  { subst edited. by apply edit_of_evaluated_text with parsed. }
  assert (∀ state,
            state !! "syntaxError" = Some VNull →
            state !! "isChanged" = Some (VBool false) →
            ValidationEditor.render (props state) = Return []) as Hclean.
  { intros state Hsyntax Hchanged.
    unfold ValidationEditor.render, ValidationEditor.renderSyntaxError,
      ValidationEditor.renderError,
      ValidationEditor.renderValidationChangedButtons.
    cbn [props ValidationEditor.error ValidationEditor.validation].
    unfold prop. rewrite Herror, Hsyntax, Hchanged. reflexivity. }
  split; [|split].
  - unfold ValidationEditor.render, ValidationEditor.renderSyntaxError,
      ValidationEditor.renderError,
      ValidationEditor.renderValidationChangedButtons,
      ValidationEditor.onValidatorSave.
    cbn [props ValidationEditor.error ValidationEditor.validation
         ValidationEditor.validatorSaved ValidationEditor.validatorCanceled].
    rewrite Herror, Hedited. unfold prop.
    replace ((<["syntaxError" := VNull]>
                (<["validator" := input]> (<["isChanged" := VBool true]> s)))
               !! "syntaxError") with (Some VNull) by (symmetry; through_inserts).
    replace ((<["syntaxError" := VNull]>
                (<["validator" := input]> (<["isChanged" := VBool true]> s)))
               !! "isChanged") with (Some (VBool true))
      by (symmetry; through_inserts).
    replace ((<["syntaxError" := VNull]>
                (<["validator" := input]> (<["isChanged" := VBool true]> s)))
               !! "validator") with (Some input) by (symmetry; through_inserts).
    reflexivity.
  - apply Hclean; unfold Validation.validatorSaved; rewrite reducer_saved;
      unfold Validation.updateValidator;
      through_inserts.
  - apply Hclean; unfold Validation.validatorCanceled;
      rewrite reducer_canceled; unfold Validation.cancelValidator;
      through_inserts.
Qed.

(** X16: the earlier reducer stores a plain string as the syntax error of
    a text that evaluates but that the language model rejects; the editor
    then shows the syntax-error box with the [message] of that string,
    which is [undefined], and no buttons. *)
Theorem rejected_text_shows_no_message (s : gmap string value)
    (input parsed : value) (props : ValidationEditor.Props) :
  Validation.executeJavascript input Validation.getQuerySandbox
  = Return parsed →
  accepts (EJSON_stringify parsed None) = false →
  truthy (ValidationEditor.error props) = false →
  ValidationEditor.validation props
  = ValidationEarly.reducer (Some s) (ValidationEarly.validatorChanged input) →
  ValidationEditor.render props
  = Return [ValidationEditor.SyntaxErrorBox VUndefined].
Proof.
  intros Hparsed Hrejected Herror Hstate.
  unfold ValidationEditor.render, ValidationEditor.renderSyntaxError,
    ValidationEditor.renderError,
    ValidationEditor.renderValidationChangedButtons.
  rewrite Herror, Hstate.
  assert (prop (ValidationEarly.reducer (Some s)
                  (ValidationEarly.validatorChanged input)) "syntaxError"
          = VStr "MongoDB language model does not accept the input") as ->.
  { destruct (edit_of_evaluated_text s input parsed Hparsed) as [_ Hearly].
    unfold prop. rewrite Hearly, Hrejected. by through_inserts. }
  reflexivity.
Qed.

(** X17: the earlier [fetchValidation] dispatches nothing, whatever the
    data service replies: it reads the listing and drops it.  It calls
    the data service once, for the listing of the collection, and not at
    all without a data service. *)
Theorem early_fetch_dispatches_nothing (namespace : Namespace)
    (state : RootState) :
  let run := ValidationEarly.fetchValidation namespace state in
  dispatched run = []
  ∧ run.1
    = match dataService state with
      | Some _ =>
          [ Called "listCollections"
              [ VStr (database namespace);
                VObj [("name", VStr (collection namespace))] ] ]
      | None => []
      end.
Proof.
  intros run.
  assert (run.1
          = match dataService state with
            | Some _ =>
                [ Called "listCollections"
                    [ VStr (database namespace);
                      VObj [("name", VStr (collection namespace))] ] ]
            | None => []
            end) as Hevents.
  { subst run. unfold ValidationEarly.fetchValidation.
    destruct (dataService state) as [service|]; [|reflexivity].
    rewrite events_call.
    destruct (listCollections service _ _) as [error data].
    destruct (get_index data 0) as [row|thrown]; [|reflexivity].
    rewrite lift_return.
    destruct (get row "options") as [options|thrown]; [|reflexivity].
    rewrite lift_return.
    by destruct (truthy error || negb (truthy options)). }
  split; [|exact Hevents].
  unfold dispatched. rewrite Hevents.
  by destruct (dataService state).
Qed.

End EditorBoxes.

Section Banner.
Import CompassSchemaValidation.
Variable gte : string → string → bool.

(** X18: the schema validation component shows the editor and the sample
    documents only for an editable collection that left the zero state.
    A collection that is not editable always gets the warning row above
    the zero state with a disabled button, the version warning with its
    upgrade link when the server is older than 3.2.0 and the read-only
    warning otherwise; an editable collection gets no warning row and an
    enabled button. *)
Theorem content_needs_editable (props : Props) :
  let zero disabled :=
    ZeroState HEADER SUBTEXT
      ("btn btn-primary btn-lg " +:+ (if disabled : bool then "disabled" else ""))
      DOC_SCHEMA_VALIDATION in
  let warning :=
    if gte (serverVersion props) "3.2.0"
    then StatusRow "warning" READ_ONLY_WARNING None
    else StatusRow "warning" VERSION_WARNING (Some DOC_UPGRADE_REVISION) in
  (In Content (render gte props)
   ↔ isEditable props = true ∧ isZeroState props = false)
  ∧ (isEditable props = false → render gte props = [warning; zero true])
  ∧ (isEditable props = true → isZeroState props = true →
     render gte props = [zero false])
  ∧ (isEditable props = true → isZeroState props = false →
     render gte props = [Content]).
Proof.
  intros zero warning. subst zero warning.
  unfold render, renderBanner, renderZeroState, renderContent,
    checkIfZeroState, isProperServerVersion, MIN_VERSION.
  destruct (isEditable props), (isZeroState props),
    (gte (serverVersion props) "3.2.0");
    cbn; repeat split; try discriminate; try tauto; try reflexivity;
    intuition discriminate.
Qed.

End Banner.

(** * The added properties on concrete runs *)

Section Scenarios.
Existing Instance Reference.engine.

Lemma cancel_restores_fetched_text_witness :
  let fetched := {[ "validator" := VStr "{ a: 1 }" ]} in
  let edits :=
    [ Validation.validatorChanged (VStr "{ b: 2 }");
      Validation.validationActionChanged (VStr "error");
      Action "constructor" ∅;
      Validation.validatorChanged (VStr "{ b: ") ] in
  let created :=
    Validation.createValidator Validation.INITIAL_STATE
      (Action Validation.VALIDATOR_CREATED fetched) in
  let middle := after Validation.reducer created edits in
  (Forall (λ a, type a ≠ Validation.VALIDATOR_CREATED) edits
   ∧ Inherited.after Validation.MAPPINGS Validation.INITIAL_STATE created
       edits
     = Some middle)
  ∧ ∃ final,
      Inherited.reducer Validation.MAPPINGS Validation.INITIAL_STATE
        (Some middle) Validation.validatorCanceled
      = Return (Inherited.State final)
      ∧ final !! "validator" = created !! "validator".
Proof.
  intros fetched edits created middle.
  assert (Forall (λ a, type a ≠ Validation.VALIDATOR_CREATED) edits) as Hedits.
  { subst edits. repeat constructor; intros Heq; vm_compute in Heq;
      discriminate. }
  assert (Inherited.after Validation.MAPPINGS Validation.INITIAL_STATE created
            edits
          = Some middle) as Hmiddle by (vm_compute; reflexivity).
  split; [by split|].
  pose proof (cancel_restores_fetched_text Validation.INITIAL_STATE fetched
                edits middle) as Hcancel.
  cbv zeta in Hcancel.
  destruct (Hcancel Hedits Hmiddle) as (_ & final & Hfinal & Hsame & _).
  exists final. split; [exact Hfinal|exact Hsame].
Defined.

Lemma action_and_level_are_kept_witness :
  let actions :=
    [ Validation.validatorChanged (VStr "{ a: 1 }");
      Validation.validatorCanceled;
      Validation.validatorSaved (VStr "{ b: 2 }");
      Validation.validatorCreated (VStr "{ c: 3 }") ] in
  let final := after Validation.reducer Fixture.edited actions in
  (Forall (λ a, type a ≠ Validation.VALIDATION_ACTION_CHANGED
                ∧ type a ≠ Validation.VALIDATION_LEVEL_CHANGED) actions
   ∧ Inherited.after Validation.MAPPINGS Validation.INITIAL_STATE
       Fixture.edited actions
     = Some final)
  ∧ final !! "validationAction" = Some (VStr "error")
  ∧ final !! "validationLevel" = Some (VStr "strict").
Proof.
  intros actions final.
  assert (Forall (λ a, type a ≠ Validation.VALIDATION_ACTION_CHANGED
                       ∧ type a ≠ Validation.VALIDATION_LEVEL_CHANGED) actions)
    as Hactions.
  { subst actions.
    repeat constructor; intros Heq; vm_compute in Heq; discriminate. }
  assert (Inherited.after Validation.MAPPINGS Validation.INITIAL_STATE
            Fixture.edited actions
          = Some final) as Hfinal by (vm_compute; reflexivity).
  split; [by split|].
  destruct (action_and_level_are_kept Fixture.edited actions final Hactions
              Hfinal) as [Haction Hlevel].
  rewrite Haction, Hlevel. split; vm_compute; reflexivity.
Defined.

Lemma clean_state_has_no_syntax_error_witness :
  let actions :=
    [ Validation.validatorChanged (VStr "{ a: "); Validation.validatorCanceled ] in
  let s := after Validation.reducer Validation.INITIAL_STATE actions in
  s !! "isChanged" = Some (VBool false) ∧ s !! "syntaxError" = Some VNull.
Proof.
  intros actions s.
  assert (s !! "isChanged" = Some (VBool false)) as Hclean
    by (vm_compute; reflexivity).
  split; [exact Hclean|].
  exact (clean_state_has_no_syntax_error actions Hclean).
Defined.

Lemma failed_check_keeps_the_text_witness :
  let input := VStr "{ a: " in
  let error := SyntaxError "Unexpected token" in
  Validation.executeJavascript input Validation.getQuerySandbox = Throw error
  ∧ Validation.checkValidator input
    = {| Validation.syntaxError := error; Validation.validator := input |}.
Proof.
  intros input error.
  assert (Validation.executeJavascript input Validation.getQuerySandbox
          = Throw error) as Hthrown by (vm_compute; reflexivity).
  split; [exact Hthrown|].
  exact (proj1 (failed_check_keeps_the_text Fixture.edited input error
                  Hthrown)).
Defined.

Lemma evaluated_text_is_stored_witness :
  let input := VStr "{ a: 1 }" in
  let parsed := VObj [("a", VNum 1)] in
  Validation.executeJavascript input Validation.getQuerySandbox = Return parsed
  ∧ Validation.reducer (Some Fixture.edited)
      (Validation.validatorChanged input) !! "validator"
    = Some input
  ∧ ValidationEarly.reducer (Some Fixture.edited)
      (ValidationEarly.validatorChanged input) !! "validator"
    = Some (EJSON_stringify parsed None).
Proof.
  intros input parsed.
  assert (Validation.executeJavascript input Validation.getQuerySandbox
          = Return parsed) as Hparsed by (vm_compute; reflexivity).
  split; [exact Hparsed|].
  pose proof (evaluated_text_is_stored Fixture.edited input parsed Hparsed)
    as Hstored.
  cbv zeta in Hstored.
  destruct Hstored as ((Hlater & _) & (Hearly & _)).
  split; [exact Hlater|exact Hearly].
Defined.

Lemma fetched_options_fall_back_witness :
  let state :=
    Fixture.store (Some (Scenario.service 7)) Validation.INITIAL_STATE
      SampleDocuments.INITIAL_STATE in
  let rules := VObj [("name", VObj [("$exists", VBool true)])] in
  listCollections (Scenario.service 7) "db" (VObj [("name", VStr "people")])
  = (VNull, VArr [VObj [("name", VStr "people");
                        ("options", Scenario.options)]])
  ∧ dispatched (Validation.fetchValidation Fixture.people state)
    = [ Validation.validatorCreated (EJSON_stringify rules (Some 2%nat));
        Validation.validationActionChanged (VStr "error");
        Validation.validationLevelChanged (VStr "moderate") ].
Proof.
  intros state rules.
  assert (listCollections (Scenario.service 7) "db"
            (VObj [("name", VStr "people")])
          = (VNull, VArr [VObj [("name", VStr "people");
                                ("options", Scenario.options)]])) as Hlisted
    by reflexivity.
  split; [exact Hlisted|].
  pose proof (fetched_options_fall_back Fixture.people state
                (Scenario.service 7) VNull
                [("name", VStr "people"); ("options", Scenario.options)]
                [ ("validator", rules); ("validationAction", VStr "error") ]
                [] eq_refl Hlisted eq_refl eq_refl) as Hfetched.
  cbv zeta in Hfetched. exact (proj1 Hfetched).
Defined.

Lemma fetch_falls_back_to_defaults_witness :
  let state :=
    Fixture.store (Some Scenario.plain) Validation.INITIAL_STATE
      SampleDocuments.INITIAL_STATE in
  let row := VObj [("name", VStr "people")] in
  listCollections Scenario.plain "db" (VObj [("name", VStr "people")])
  = (VNull, VArr [row])
  ∧ get row "options" = Return VUndefined
  ∧ dispatched (Validation.fetchValidation Fixture.people state)
    = [ Validation.validatorCreated (EJSON_stringify (VStr "") (Some 2%nat));
        Validation.validationActionChanged (VStr "warning");
        Validation.validationLevelChanged (VStr "moderate") ].
Proof.
  intros state row.
  assert (listCollections Scenario.plain "db" (VObj [("name", VStr "people")])
          = (VNull, VArr [row])) as Hlisted by reflexivity.
  assert (get row "options" = Return VUndefined) as Hoptions by reflexivity.
  split; [exact Hlisted|]. split; [exact Hoptions|].
  pose proof (fetch_falls_back_to_defaults Fixture.people state Scenario.plain
                VNull (VArr [row]) row VUndefined eq_refl Hlisted eq_refl
                Hoptions (or_intror eq_refl)) as Hfetched.
  cbv zeta in Hfetched. exact (proj1 Hfetched).
Defined.

Lemma fetched_state_is_clean_witness :
  let state :=
    Fixture.store (Some (Scenario.service 7)) Fixture.edited
      SampleDocuments.INITIAL_STATE in
  let run := Validation.fetchValidation Fixture.people state in
  let final := after Validation.reducer Fixture.edited (dispatched run) in
  run.2 = Return tt
  ∧ final !! "isChanged" = Some (VBool false)
  ∧ final !! "prevValidator" = final !! "validator".
Proof.
  intros state run final.
  assert (run.2 = Return tt) as Hdone by (vm_compute; reflexivity).
  split; [exact Hdone|].
  pose proof (fetched_state_is_clean Fixture.people state (Scenario.service 7)
                Fixture.edited eq_refl) as Hclean.
  cbv zeta in Hclean.
  destruct (Hclean Hdone) as (Hchanged & _ & Hsnapshot & _).
  split; [exact Hchanged|exact Hsnapshot].
Defined.

Lemma fetch_reports_first_documents_witness :
  let input := VStr "{ name: { $exists: true } }" in
  let state :=
    Fixture.store (Some (Scenario.service 7)) Validation.INITIAL_STATE
      Fixture.shown in
  let run :=
    SampleDocuments.fetchSampleDocuments Fixture.surfaced input state in
  count (Scenario.service 7) "db.people"
    (VObj [("name", VObj [("$exists", VBool true)])]) (VObj [])
  = (VNull, VNum 7)
  ∧ dispatched run
    = [ SampleDocuments.loadingSampleDocuments;
        SampleDocuments.sampleDocumentsFetched
          [("matching", Scenario.carol); ("notmatching", VNull)] ]
  ∧ after SampleDocuments.reducer Fixture.shown (dispatched run) !! "notmatching"
    = Some VNull.
Proof.
  intros input state run.
  split; [reflexivity|].
  pose proof (fetch_reports_first_documents Fixture.surfaced input state
                (Scenario.service 7) 7 [Scenario.carol] [] Fixture.shown)
    as Hfetched.
  cbv zeta in Hfetched.
  destruct Hfetched as (Hdispatched & _ & Hnot & _).
  - reflexivity.
  - split; vm_compute; reflexivity.
  - repeat split; vm_compute; reflexivity.
  - repeat split; vm_compute; reflexivity.
  - split; [exact Hdispatched|exact Hnot].
Defined.

Lemma lookups_are_capped_witness :
  let input := VStr "{ name: { $exists: true } }" in
  let query := VObj [("name", VObj [("$exists", VBool true)])] in
  let state :=
    Fixture.store (Some (Scenario.service 250000)) Validation.INITIAL_STATE
      SampleDocuments.INITIAL_STATE in
  let run :=
    SampleDocuments.fetchSampleDocuments Fixture.surfaced input state in
  count (Scenario.service 250000) "db.people" query (VObj [])
  = (VNull, VNum 250000)
  ∧ omap (λ e, match e with
               | Called method args => Some (method, args)
               | Dispatched _ => None
               end) run.1
    = [ ("count", [VStr "db.people"; query; VObj []]);
        ("aggregate",
         [ VStr "db.people";
           VArr [ VObj [("$limit", VNum 100000)];
                  VObj [("$match", query)];
                  VObj [("$limit", VNum 1)] ];
           VObj [("allowDiskUse", VBool true)] ]);
        ("toArray", []);
        ("close", []);
        ("aggregate",
         [ VStr "db.people";
           VArr [ VObj [("$limit", VNum 100000)];
                  VObj [("$match", VObj [("$nor", VArr [query])])];
                  VObj [("$limit", VNum 1)] ];
           VObj [("allowDiskUse", VBool true)] ]);
        ("toArray", []);
        ("close", []) ].
Proof.
  intros input query state run.
  split; [reflexivity|].
  pose proof (lookups_are_capped Fixture.surfaced input state
                (Scenario.service 250000) 250000 [Scenario.carol] [])
    as Hcalls.
  cbv zeta in Hcalls.
  refine (eq_trans (Hcalls _ _ _ _) _).
  - reflexivity.
  - split; vm_compute; reflexivity.
  - repeat split; vm_compute; reflexivity.
  - repeat split; vm_compute; reflexivity.
  - vm_compute. reflexivity.
Defined.

Lemma early_fetch_reports_first_documents_witness :
  let input := VStr "{ name: { $exists: true } }" in
  let query := VObj [("name", VObj [("$exists", VBool true)])] in
  let options := VObj [("maxTimeMS", VNum 5000); ("limit", VNum 1)] in
  let state :=
    Fixture.store (Some (Scenario.service 7)) Validation.INITIAL_STATE
      Fixture.shown in
  let run := SampleDocumentsEarly.fetchSampleDocuments input state in
  find (Scenario.service 7) "db.people" query options
  = (VNull, VArr [Scenario.carol])
  ∧ dispatched run
    = [ SampleDocumentsEarly.loadingSampleDocuments;
        SampleDocumentsEarly.sampleDocumentsFetched
          [("matching", Scenario.carol); ("notmatching", VNull)] ]
  ∧ after SampleDocumentsEarly.reducer Fixture.shown (dispatched run)
      !! "matching"
    = Some Scenario.carol.
Proof.
  intros input query options state run.
  split; [reflexivity|].
  pose proof (early_fetch_reports_first_documents input state
                (Scenario.service 7) [Scenario.carol] [] Fixture.shown)
    as Hfetched.
  cbv zeta in Hfetched.
  destruct Hfetched as (Hrun & Hmatching & _).
  - reflexivity.
  - split; vm_compute; reflexivity.
  - split; vm_compute; reflexivity.
  - split; [|exact Hmatching].
    subst run. rewrite Hrun. vm_compute. reflexivity.
Defined.

Lemma buttons_show_until_clicked_witness :
  let input := VStr "{ a: 1 }" in
  let props state :=
    {| ValidationEditor.validation := state;
       ValidationEditor.error := VUndefined;
       ValidationEditor.validatorSaved := Validation.validatorSaved;
       ValidationEditor.validatorCanceled := Validation.validatorCanceled |} in
  let edited :=
    Validation.reducer (Some Validation.INITIAL_STATE)
      (Validation.validatorChanged input) in
  Validation.executeJavascript input Validation.getQuerySandbox
  = Return (VObj [("a", VNum 1)])
  ∧ ValidationEditor.render (props edited)
    = Return [ ValidationEditor.ChangedButtons
                 (Validation.validatorSaved input)
                 Validation.validatorCanceled ]
  ∧ ValidationEditor.render
      (props (Validation.reducer (Some edited)
                (Validation.validatorSaved input)))
    = Return [].
Proof.
  intros input props edited.
  assert (Validation.executeJavascript input Validation.getQuerySandbox
          = Return (VObj [("a", VNum 1)])) as Hparsed
    by (vm_compute; reflexivity).
  split; [exact Hparsed|].
  pose proof (buttons_show_until_clicked Validation.INITIAL_STATE input
                (VObj [("a", VNum 1)]) VUndefined) as Hbuttons.
  cbv zeta in Hbuttons.
  destruct (Hbuttons Hparsed eq_refl) as (Hshown & Hsaved & _).
  split; [exact Hshown|exact Hsaved].
Defined.

Lemma rejected_text_shows_no_message_witness :
  let input := VStr "7" in
  let props :=
    {| ValidationEditor.validation :=
         ValidationEarly.reducer (Some ValidationEarly.INITIAL_STATE)
           (ValidationEarly.validatorChanged input);
       ValidationEditor.error := VUndefined;
       ValidationEditor.validatorSaved := ValidationEarly.validatorSaved;
       ValidationEditor.validatorCanceled := ValidationEarly.validatorCanceled |} in
  Validation.executeJavascript input Validation.getQuerySandbox
  = Return (VNum 7)
  ∧ accepts (EJSON_stringify (VNum 7) None) = false
  ∧ ValidationEditor.render props
    = Return [ValidationEditor.SyntaxErrorBox VUndefined].
Proof.
  intros input props.
  assert (Validation.executeJavascript input Validation.getQuerySandbox
          = Return (VNum 7)) as Hparsed by (vm_compute; reflexivity).
  assert (accepts (EJSON_stringify (VNum 7) None) = false) as Hrejected
    by (vm_compute; reflexivity).
  split; [exact Hparsed|]. split; [exact Hrejected|].
  exact (rejected_text_shows_no_message ValidationEarly.INITIAL_STATE input
           (VNum 7) props Hparsed Hrejected eq_refl eq_refl).
Defined.

End Scenarios.

(** * The query of a text that does not evaluate *)

Section Queries.
Context `{Engine}.
Variable syntaxErrorOccurred : value -> action.

(** X19: a text on which the sandbox throws is not held back: both
    revisions of [fetchSampleDocuments] check it twice, get it back both
    times, and send the text as typed to the data service as the query of
    their first call, the [count] of the later revision and the [find] of
    the earlier one. *)
Theorem unparsable_text_is_the_query (input error : value)
    (state : RootState) (service : DataService) :
  Validation.executeJavascript input Validation.getQuerySandbox = Throw error →
  dataService state = Some service →
  (∃ rest,
     (SampleDocuments.fetchSampleDocuments syntaxErrorOccurred input state).1
     = Dispatched SampleDocuments.loadingSampleDocuments
       :: Called "count" [VStr (ns (namespace state)); input; VObj []]
       :: rest)
  ∧ (∃ rest,
       (SampleDocumentsEarly.fetchSampleDocuments input state).1
       = Dispatched SampleDocumentsEarly.loadingSampleDocuments
         :: Called "find"
              [ VStr (ns (namespace state)); input;
                VObj [("maxTimeMS", VNum 5000); ("limit", VNum 1)] ]
         :: rest).
Proof.
  intros Hthrown Hservice.
  assert (Validation.validator
            (Validation.checkValidator
               (Validation.validator (Validation.checkValidator input)))
          = input) as Hquery.
  { unfold Validation.checkValidator. rewrite Hthrown.
    cbn [Validation.validator]. by rewrite Hthrown. }
  split.
  - unfold SampleDocuments.fetchSampleDocuments.
    rewrite Hservice, Hquery, events_dispatch, events_call.
    eexists. reflexivity.
  - unfold SampleDocumentsEarly.fetchSampleDocuments.
    rewrite Hservice, Hquery, events_dispatch, events_call.
    eexists. reflexivity.
Qed.

End Queries.

Section QueryScenario.
Existing Instance Reference.engine.

Lemma unparsable_text_is_the_query_witness :
  let input := VStr "{ a: " in
  let state :=
    Fixture.store (Some Fixture.idle) Validation.INITIAL_STATE
      SampleDocuments.INITIAL_STATE in
  Validation.executeJavascript input Validation.getQuerySandbox
  = Throw (SyntaxError "Unexpected token")
  ∧ ∃ rest,
      (SampleDocuments.fetchSampleDocuments Fixture.surfaced input state).1
      = Dispatched SampleDocuments.loadingSampleDocuments
        :: Called "count" [VStr "db.people"; input; VObj []]
        :: rest.
Proof.
  intros input state.
  assert (Validation.executeJavascript input Validation.getQuerySandbox
          = Throw (SyntaxError "Unexpected token")) as Hthrown
    by (vm_compute; reflexivity).
  split; [exact Hthrown|].
  exact (proj1 (unparsable_text_is_the_query Fixture.surfaced input
                  (SyntaxError "Unexpected token") state Fixture.idle
                  Hthrown eq_refl)).
Defined.

End QueryScenario.
